(** * flusec-cloud: the findings ingestion endpoint

    A shallow embedding of the ingestion server (the [POST /v1/findings]
    handler, [githubUsernameFromToken] and [normalizeToWorkspaces]) and the
    properties of its payload normalisation and of its request pipeline.

    JavaScript values are an inductive type, numbers are IEEE 754 binary64
    values ([spec_float]), exceptions are an explicit completion, and the
    collaborators of the handler (clock, identity service, document store)
    are oracles of an environment threaded through a state monad. *)

From Stdlib Require Import ZArith List String Ascii Bool Lia.
From Stdlib Require Import DecimalString.
From Corelib Require Import SpecFloat.
Import ListNotations.

Local Open Scope string_scope.
Local Open Scope list_scope.

Set Warnings "-register-all".

(** ** JavaScript numbers *)

Module Num.

(** A JavaScript number is a binary64 floating-point value. *)
Definition number : Type := spec_float.

Definition prec : Z := 53.
Definition emax : Z := 1024.

(** The number written as the integer literal [z]. *)
Definition ofZ (z : Z) : number := binary_normalize prec emax z 0 false.

(** The number of a length ([Array.prototype.length]). *)
Definition ofNat (n : nat) : number := ofZ (Z.of_nat n).

Definition zero : number := S754_zero false.

(** [typeof x === "number"] holds of every [number]; a number is truthy
    unless it is [+0], [-0] or [NaN]. *)
Definition truthy (x : number) : bool :=
  match x with
  | S754_zero _ | S754_nan => false
  | S754_infinity _ | S754_finite _ _ _ => true
  end.

(** [x + y] on numbers. *)
Definition add (x y : number) : number := SFadd prec emax x y.

(** [x || y] when both operands are numbers. *)
Definition or (x y : number) : number := if truthy x then x else y.



(** A mantissa shifted left by [k] binary places. *)
Definition shl (p : positive) (k : Z) : positive :=
  match k with
  | Zpos q => Pos.iter xO p q
  | _ => p
  end.

(** The sum of a sequence of numbers, added from the left starting at 0
    as [reduce((sum, x) => sum + x, 0)] does. *)
Definition sum (l : list number) : number := fold_left add l zero.

End Num.

Export Num(number).

(** ** JavaScript strings *)

Module Text.

(** White space removed by [String.prototype.trim], among the code units
    below 256 (an HTTP header value is decoded as Latin-1): TAB, LF, VT, FF,
    CR, SPACE and NBSP. *)
Definition isWhiteSpace (c : ascii) : bool :=
  match nat_of_ascii c with
  | 9 | 10 | 11 | 12 | 13 | 32 | 160 => true
  | _ => false
  end.

Fixpoint trimStart (s : string) : string :=
  match s with
  | EmptyString => EmptyString
  | String c rest => if isWhiteSpace c then trimStart rest else s
  end.

Fixpoint trimEnd (s : string) : string :=
  match s with
  | EmptyString => EmptyString
  | String c rest =>
      match trimEnd rest with
      | EmptyString => if isWhiteSpace c then EmptyString else String c EmptyString
      | kept => String c kept
      end
  end.

(** [s.trim()] *)
Definition trim (s : string) : string := trimEnd (trimStart s).

(** [s.slice(n)] for [n >= 0]. *)
Fixpoint slice (n : nat) (s : string) : string :=
  match n, s with
  | O, _ => s
  | S _, EmptyString => EmptyString
  | S k, String _ rest => slice k rest
  end.

(** [s.startsWith(p)] *)
Definition startsWith (p s : string) : bool := String.prefix p s.

Definition isEmpty (s : string) : bool :=
  match s with EmptyString => true | _ => false end.

(** Every code unit of [s] is white space. *)
Fixpoint allWhiteSpace (s : string) : bool :=
  match s with
  | EmptyString => true
  | String c rest => isWhiteSpace c && allWhiteSpace rest
  end.

(** The decimal digits of a natural number (an HTTP status in a template
    literal). *)
Definition ofNat (n : nat) : string := NilZero.string_of_uint (Nat.to_uint n).

End Text.

(** ** JavaScript values and completions *)

(** The values a parsed JSON body is made of, and [undefined] (what reading
    a missing property gives).  An object is the list of its own properties;
    a property is read at its first binding. *)
Inductive value : Type :=
| Undefined
| Null
| Bool (b : bool)
| Number (n : number)
| Str (s : string)
| Arr (elements : list value)
| Obj (properties : list (string * value)).

(** A thrown [Error]: its [name] (of its prototype) and its [message]. *)
Record Error : Type := mkError { name : string; message : string }.

(** The outcome of evaluating an expression: a value, or a thrown error. *)
Inductive Completion (A : Type) : Type :=
| Normal (a : A)
| Throw (e : Error).

Arguments Normal {A} a.
Arguments Throw {A} e.

(** [String(e?.message || e)] for a thrown [Error] [e]: its message, or when
    the message is empty, [Error.prototype.toString], which is then the
    name alone. *)
Definition errorString (e : Error) : string :=
  if Text.isEmpty (message e) then name e else message e.

(** The [TypeError] of [OrdinaryToPrimitive] when neither [toString] nor
    [valueOf] yields a primitive. *)
Definition cannotConvert : Error :=
  mkError "TypeError" "Cannot convert object to primitive value".

(** The [RangeError] of a recursion that exhausts the call stack. *)
Definition stackOverflow : Error :=
  mkError "RangeError" "Maximum call stack size exceeded".

Module JS.

(** ToBoolean *)
Definition truthy (v : value) : bool :=
  match v with
  | Undefined | Null => false
  | Bool b => b
  | Number n => Num.truthy n
  | Str s => negb (Text.isEmpty s)
  | Arr _ | Obj _ => true
  end.

(** [a || b] *)
Definition or (a b : value) : value := if truthy a then a else b.

(** [Array.isArray(v)] *)
Definition isArray (v : value) : bool :=
  match v with Arr _ => true | _ => false end.

(** [typeof v === "number"] *)
Definition isNumber (v : value) : bool :=
  match v with Number _ => true | _ => false end.

Fixpoint lookup (k : string) (props : list (string * value)) : option value :=
  match props with
  | [] => None
  | (k', v) :: rest => if String.eqb k k' then Some v else lookup k rest
  end.

Definition hasOwn (k : string) (props : list (string * value)) : bool :=
  match lookup k props with Some _ => true | None => false end.

(** [v?.k] for the property names the server reads ([workspaces],
    [workspaceId], [workspaceName], [extensionVersion], [generatedAt],
    [findings], [findingsCount], [findingsFile], [login]): none of them is
    inherited from a prototype, so only an object's own property is found;
    on [undefined] and [null] the optional chain gives [undefined]. *)
Definition get (v : value) (k : string) : value :=
  match v with
  | Obj props => match lookup k props with Some x => x | None => Undefined end
  | _ => Undefined
  end.

Section Conversion.

(** Number::toString, the shortest decimal text that reads back as the
    number: kept abstract. *)
Variable NumberToString : number -> string.

(** [String(v)], that is ToString: an array is its elements joined by
    commas ([undefined] and [null] elements as the empty text); an object
    is ["[object Object]"] unless it has an own [toString] property: a
    parsed body holds no function, so that property is not callable,
    [Object.prototype.valueOf] returns the object itself, and the
    conversion throws a [TypeError].

    [Array.prototype.join] converts an element that is an array by a
    nested call, and the call stack bounds that recursion: [depth] is how
    many arrays inside one another the runtime still converts; an array met
    with no depth left throws a [RangeError]. *)
Fixpoint ToString (depth : nat) (v : value) {struct v} : Completion string :=
  match v with
  | Undefined => Normal "undefined"
  | Null => Normal "null"
  | Bool true => Normal "true"
  | Bool false => Normal "false"
  | Number n => Normal (NumberToString n)
  | Str s => Normal s
  | Arr elements =>
      match depth with
      | O => Throw stackOverflow
      | S deeper =>
          let element (x : value) : Completion string :=
            match x with
            | Undefined | Null => Normal ""
            | _ => ToString deeper x
            end in
          (fix join (l : list value) : Completion string :=
             match l with
             | [] => Normal ""
             | [x] => element x
             | x :: rest =>
                 match element x with
                 | Throw e => Throw e
                 | Normal s =>
                     match join rest with
                     | Throw e => Throw e
                     | Normal r => Normal (s ++ "," ++ r)%string
                     end
                 end
             end) elements
      end
  | Obj props =>
      if hasOwn "toString" props then Throw cannotConvert
      else Normal "[object Object]"
  end.

End Conversion.

End JS.

(** ** Data model *)

(** A normalised workspace payload, as [normalizeToWorkspaces] builds it. *)
Record WorkspaceBatch : Type := mkBatch {
  workspaceId : string;
  workspaceName : string;
  extensionVersion : string;
  generatedAt : string;
  findings : list value;
  findingsCount : number;
  findingsFile : string
}.

(** A [Date], as milliseconds since the epoch. *)
Definition Date : Type := Z.

(** A document handed to the store, as the handler builds it. *)
Record Doc : Type := mkDoc {
  doc_username : value;
  doc_workspaceId : string;
  doc_workspaceName : string;
  doc_extensionVersion : string;
  doc_generatedAt : string;
  doc_receivedAt : Date;
  doc_findingsFile : string;
  doc_findingsCount : number;
  doc_findings : list value
}.

(** An identifier the store assigns; [id.toString()] is its [hex] text. *)
Record ObjectId : Type := mkObjectId { hex : string }.

(** What [fetch] resolves to: [r.ok], [r.status], the body read by
    [r.text()] ([None] when reading fails) and the outcome of [r.json()]. *)
Record FetchResponse : Type := mkFetchResponse {
  ok : bool;
  status : nat;
  text : option string;
  json : Completion value
}.

(** The body of a response of the handler. *)
Inductive Payload : Type :=
| Failure (error : string)
| Success (username : value) (batchesInserted : nat) (totalFindings : number)
    (batchIds : list string).

Record Response : Type := mkResponse {
  statusCode : nat;
  payload : Payload
}.

(** A request: [req.headers.authorization] ([None] when the header is
    absent) and the parsed [req.body]. *)
Record Request : Type := mkRequest {
  authorization : option string;
  body : value
}.

(** The calls the handler makes, in the order it makes them. *)
Inductive Event : Type :=
| IdentityCall (token : string)
| Normalization (body : value)
| InsertMany (docs : list Doc).

(** The collaborators of the server. *)
Record Env : Type := mkEnv {
  (** Number::toString of the runtime *)
  NumberToString : number -> string;
  (** [Date.prototype.toISOString] *)
  toISOString : Date -> string;
  (** the reading of the k-th [new Date()] of the process *)
  clock : nat -> Date;
  (** the answer of [https://api.github.com/user] to a bearer token: a
      response, or the error [fetch] rejects with *)
  identityService : string -> Completion FetchResponse;
  (** the k-th identifier the store generates *)
  newObjectId : nat -> ObjectId;
  (** a fault of the store on a write: how many documents of the batch it
      wrote before failing, and the error [insertMany] rejects with *)
  storageFault : list (ObjectId * Doc) -> list Doc -> option (nat * Error);
  (** how many arrays inside one another [String] converts before the call
      stack overflows *)
  maxNesting : nat
}.

(** The state of the process and of its collaborators. *)
Record World : Type := mkWorld {
  ticks : nat;                      (* readings of the clock so far *)
  minted : nat;                     (* identifiers generated so far *)
  store : list (ObjectId * Doc);    (* the collection, oldest first *)
  trace : list Event                (* the calls made so far, oldest first *)
}.

(** ** The monad of the handler: state and exceptions *)

Definition M (A : Type) : Type := World -> Completion A * World.

Definition ret {A} (a : A) : M A := fun w => (Normal a, w).

Definition throw {A} (e : Error) : M A := fun w => (Throw e, w).

Definition bind {A B} (m : M A) (k : A -> M B) : M B :=
  fun w =>
    match m w with
    | (Normal a, w') => k a w'
    | (Throw e, w') => (Throw e, w')
    end.

(** [try { m } catch (e) { h e }] *)
Definition tryCatch {A} (m : M A) (h : Error -> M A) : M A :=
  fun w =>
    match m w with
    | (Normal a, w') => (Normal a, w')
    | (Throw e, w') => h e w'
    end.

(** A pure expression that may throw. *)
Definition lift {A} (c : Completion A) : M A := fun w => (c, w).

Declare Scope js_scope.
Delimit Scope js_scope with js.
Notation "x <- m ;; k" := (bind m (fun x => k))
  (at level 61, m at next level, right associativity) : js_scope.
Notation "m ;;; k" := (bind m (fun _ => k))
  (at level 61, right associativity) : js_scope.

(** [xs.map(f)] for a callback with effects: left to right, abandoned at the
    first exception. *)
Fixpoint mapM {A B} (f : A -> M B) (xs : list A) : M (list B) :=
  match xs with
  | [] => ret []
  | x :: rest =>
      (y <- f x ;;
       ys <- mapM f rest ;;
       ret (y :: ys))%js
  end.

(** [new Date()] *)
Definition newDate (env : Env) : M Date :=
  fun w => (Normal (clock env (ticks w)),
            mkWorld (S (ticks w)) (minted w) (store w) (trace w)).

(** Recording a call in the trace. *)
Definition note (ev : Event) (w : World) : World :=
  mkWorld (ticks w) (minted w) (store w) (trace w ++ [ev]).

Definition emit (ev : Event) : M unit := fun w => (Normal tt, note ev w).

(** ** The server *)

Section Server.

Variable env : Env.

Local Open Scope js_scope.

(** [String(v)] *)
Definition toStr (v : value) : M string :=
  lift (JS.ToString (NumberToString env) (maxNesting env) v).

(** [new Date().toISOString()] *)
Definition nowISO : M value :=
  d <- newDate env ;; ret (Str (toISOString env d)).

(** [v || e] for an operand [e] with effects: [e] is evaluated only when
    [v] is falsy. *)
Definition orElse (v : value) (e : M value) : M value :=
  if JS.truthy v then ret v else e.

(** [githubUsernameFromToken(token)]: one call to the identity service;
    a response that is not [ok], or whose JSON has no truthy [login],
    throws. *)
Definition githubUsernameFromToken (token : string) : M value :=
  emit (IdentityCall token) ;;;
  r <- lift (identityService env token) ;;
  if negb (ok r) then
    let body_text := match text r with Some t => t | None => "" end in
    throw (mkError "Error"
             (Text.trim ("GitHub auth failed: HTTP " ++ Text.ofNat (status r)
                        ++ " " ++ body_text)%string))
  else
    data <- lift (json r) ;;
    if negb (JS.truthy (JS.get data "login")) then
      throw (mkError "Error" "GitHub response missing login")
    else ret (JS.get data "login").

(** [Array.isArray(w?.findings) ? w.findings : []] *)
Definition findingsOf (w : value) : list value :=
  match JS.get w "findings" with
  | Arr l => l
  | _ => []
  end.

(** [typeof w?.findingsCount === "number" ? w.findingsCount
     : (Array.isArray(w?.findings) ? w.findings.length : 0)] *)
Definition findingsCountOf (w : value) : number :=
  match JS.get w "findingsCount" with
  | Number n => n
  | _ =>
      match JS.get w "findings" with
      | Arr l => Num.ofNat (List.length l)
      | _ => Num.zero
      end
  end.

(** The object literal of the multi-workspace branch, for the element [w]
    of [body.workspaces]; its properties are evaluated in source order. *)
Definition multiRecord (body w : value) : M WorkspaceBatch :=
  wid <- toStr (JS.or (JS.get w "workspaceId") (Str "")) ;;
  wname <- toStr (JS.or (JS.get w "workspaceName") (Str "")) ;;
  version <- toStr (JS.or (JS.or (JS.get body "extensionVersion")
                             (JS.get w "extensionVersion")) (Str "")) ;;
  stamp <- orElse (JS.or (JS.get body "generatedAt") (JS.get w "generatedAt"))
             nowISO ;;
  generated <- toStr stamp ;;
  file <- toStr (JS.or (JS.get w "findingsFile") (Str "")) ;;
  ret (mkBatch wid wname version generated (findingsOf w) (findingsCountOf w) file).

(** The object literal of the flat legacy branch. *)
Definition flatRecord (body : value) : M WorkspaceBatch :=
  wid <- toStr (JS.or (JS.get body "workspaceId") (Str "")) ;;
  wname <- toStr (JS.or (JS.get body "workspaceName") (Str "")) ;;
  version <- toStr (JS.or (JS.get body "extensionVersion") (Str "")) ;;
  stamp <- orElse (JS.get body "generatedAt") nowISO ;;
  generated <- toStr stamp ;;
  file <- toStr (JS.or (JS.get body "findingsFile") (Str "")) ;;
  ret (mkBatch wid wname version generated (findingsOf body) (findingsCountOf body) file).

(** [normalizeToWorkspaces(body)] *)
Definition normalizeToWorkspaces (body : value) : M (list WorkspaceBatch) :=
  if JS.truthy body && JS.isArray (JS.get body "workspaces") then
    match JS.get body "workspaces" with
    | Arr workspaces => mapM (multiRecord body) workspaces
    | _ => ret []
    end
  else
    r <- flatRecord body ;; ret [r].

(** The callback of [workspacePayloads.map] that builds a document.  The
    record type already makes [w.findings] a list, so the callback's
    [Array.isArray(w.findings) ? w.findings : []] is [w.findings]; its
    [Number(w.findingsCount || 0)] is on a number. *)
Definition buildDoc (username : value) (w : WorkspaceBatch) : M Doc :=
  received <- newDate env ;;
  ret (mkDoc username (workspaceId w) (workspaceName w) (extensionVersion w)
         (generatedAt w) received (findingsFile w)
         (Num.or (findingsCount w) Num.zero) (findings w)).

(** [batches.insertMany(docs)]: the store gives each document a fresh
    identifier and appends the batch; [result.insertedIds] maps each index
    to the identifier of the document at that index, and [Object.values]
    lists them by index.  On a fault the call rejects, after the store
    wrote a prefix of the batch. *)
Definition insertMany (docs : list Doc) : M (list ObjectId) :=
  fun w =>
    let ids := map (newObjectId env) (seq (minted w) (List.length docs)) in
    let written := combine ids docs in
    match storageFault env (store w) docs with
    | None =>
        (Normal ids,
         mkWorld (ticks w) (minted w + List.length docs) (store w ++ written)
           (trace w ++ [InsertMany docs]))
    | Some (k, e) =>
        (Throw e,
         mkWorld (ticks w) (minted w + List.length docs) (store w ++ firstn k written)
           (trace w ++ [InsertMany docs]))
    end.

(** The bearer token of a request:
    [auth.startsWith("Bearer ") ? auth.slice(7).trim() : ""] for
    [auth = String(req.headers.authorization || "")]. *)
Definition bearerToken (req : Request) : string :=
  let auth := match authorization req with Some h => h | None => "" end in
  if Text.startsWith "Bearer " auth then Text.trim (Text.slice 7 auth) else "".

(** [docs.reduce((sum, d) => sum + (d.findingsCount || 0), 0)] *)
Definition totalFindingsOf (docs : list Doc) : number :=
  fold_left (fun sum d => Num.add sum (Num.or (doc_findingsCount d) Num.zero))
    docs Num.zero.

(** The handler of [POST /v1/findings]. *)
Definition postFindings (req : Request) : M Response :=
  tryCatch
    (let token := bearerToken req in
     if Text.isEmpty token then
       ret (mkResponse 401 (Failure "Missing Bearer token"))
     else
       username <- githubUsernameFromToken token ;;
       let body := JS.or (body req) (Obj []) in
       emit (Normalization body) ;;;
       workspacePayloads <- normalizeToWorkspaces body ;;
       if Nat.eqb (List.length workspacePayloads) 0 then
         ret (mkResponse 400 (Failure "Invalid payload"))
       else
         docs <- mapM (buildDoc username) workspacePayloads ;;
         ids <- insertMany docs ;;
         let insertedIds := map hex ids in
         let totalFindings := totalFindingsOf docs in
         ret (mkResponse 200
                (Success username (List.length docs) totalFindings insertedIds)))
    (fun e => ret (mkResponse 500 (Failure (errorString e)))).

End Server.

(** ** A test bench: stub collaborators and the scenarios of the specification *)

Module Bench.

(** Number::toString on the numbers the scenarios use: the decimal digits
    of an integer given with exponent zero or in canonical form below
    2^53; the stub prints every other number as ["NaN"]. *)
Definition printNumber (x : number) : string :=
  match x with
  | S754_zero _ => "0"
  | S754_nan => "NaN"
  | S754_infinity false => "Infinity"
  | S754_infinity true => "-Infinity"
  | S754_finite s m e =>
      let sign := if s then "-" else "" in
      if (0 <=? e)%Z then
        (sign ++ NilZero.string_of_uint (N.to_uint (N.pos m * 2 ^ Z.to_N e)))%string
      else if (Z.pos m mod 2 ^ (- e) =? 0)%Z then
        (sign ++ NilZero.string_of_uint (N.to_uint (Z.to_N (Z.pos m / 2 ^ (- e)))))%string
      else "NaN"
  end.

(** The identity service of the scenarios: it knows the token ["good"] of
    alice, answers ["nologin"] with a body that has no login, and rejects
    every other token with status 401. *)
Definition github (token : string) : Completion FetchResponse :=
  if String.eqb token "good" then
    Normal (mkFetchResponse true 200 None
              (Normal (Obj [("login", Str "alice"); ("id", Number (Num.ofZ 7))])))
  else if String.eqb token "nologin" then
    Normal (mkFetchResponse true 200 None (Normal (Obj [("id", Number (Num.ofZ 7))])))
  else
    Normal (mkFetchResponse false 401 (Some "Bad credentials")
              (Normal (Obj [("message", Str "Bad credentials")]))).

Definition env : Env :=
  mkEnv printNumber
    (fun d => ("T" ++ NilZero.string_of_int (Z.to_int d))%string)
    (fun k => (1000 + Z.of_nat k)%Z)
    github
    (fun k => mkObjectId ("id" ++ Text.ofNat k))
    (fun _ _ => None)
    1000.

(** A fresh process: nothing read, nothing stored, nothing called. *)
Definition boot : World := mkWorld 0 0 [] [].

Definition withToken (token : string) (b : value) : Request :=
  mkRequest (Some ("Bearer " ++ token)%string) b.

(** Scenario A: [{findings:[{a:1},{b:2}], workspaceName:"w1"}] *)
Definition bodyA : value :=
  Obj [("findings", Arr [Obj [("a", Number (Num.ofZ 1))];
                         Obj [("b", Number (Num.ofZ 2))]]);
       ("workspaceName", Str "w1")].

(** Scenario B:
    [{workspaces:[{workspaceName:"w1",findings:[{a:1}]},
                  {workspaceName:"w2",findings:[]}]}] *)
Definition bodyB : value :=
  Obj [("workspaces",
        Arr [Obj [("workspaceName", Str "w1");
                  ("findings", Arr [Obj [("a", Number (Num.ofZ 1))]])];
             Obj [("workspaceName", Str "w2"); ("findings", Arr [])]])].

(** An empty batch: [{workspaces: []}] *)
Definition bodyEmpty : value := Obj [("workspaces", Arr [])].

(** Request-level and per-element version and time, both given:
    [{extensionVersion:"1.0.0", generatedAt:"2024-01-01T00:00:00.000Z",
      workspaces:[{extensionVersion:"2.0.0",
                   generatedAt:"2025-06-01T00:00:00.000Z"}]}] *)
Definition bodyVersions : value :=
  Obj [("extensionVersion", Str "1.0.0");
       ("generatedAt", Str "2024-01-01T00:00:00.000Z");
       ("workspaces",
        Arr [Obj [("extensionVersion", Str "2.0.0");
                  ("generatedAt", Str "2025-06-01T00:00:00.000Z")]])].


(** String fields of other types:
    [{workspaceId: true, findingsFile: {}}] *)
Definition bodyWrongTypes : value :=
  Obj [("workspaceId", Bool true); ("findingsFile", Obj [])].

(** An object that shadows [toString], flat:
    [{workspaceId: {toString: 1}}] *)
Definition bodyShadowed : value :=
  Obj [("workspaceId", Obj [("toString", Number (Num.ofZ 1))])].

(** The same inside a batch of one:
    [{workspaces: [{workspaceId: {toString: 1}}]}] *)
Definition bodyShadowedBatch : value :=
  Obj [("workspaces",
        Arr [Obj [("workspaceId", Obj [("toString", Number (Num.ofZ 1))])]])].

(** Three workspaces and no request-level time: the first has a time of
    its own, the third a version of its own:
    [{workspaces:[{generatedAt:"2025-06-01T00:00:00.000Z"}, {},
                  {extensionVersion:"2.0.0"}]}] *)
Definition bodyTimes : value :=
  Obj [("workspaces",
        Arr [Obj [("generatedAt", Str "2025-06-01T00:00:00.000Z")];
             Obj [];
             Obj [("extensionVersion", Str "2.0.0")]])].


(** [v] inside [n] arrays: [[[...v...]]] *)
Fixpoint nested (n : nat) (v : value) : value :=
  match n with
  | O => v
  | S k => Arr [nested k v]
  end.

(** A flat body whose [workspaceId] is the number 1 inside 1001 arrays, one
    more than the bench runtime converts. *)
Definition bodyDeep : value :=
  Obj [("workspaceId", nested 1001 (Number (Num.ofZ 1)))].

End Bench.

(** ** Vocabulary of the specification *)

(** The input records of a body: the elements of [body.workspaces] when that
    is an array (the multi-workspace shape), the body itself otherwise (the
    flat legacy shape). *)
Definition inputRecords (body : value) : list value :=
  match JS.get body "workspaces" with
  | Arr workspaces => workspaces
  | _ => [body]
  end.

(** What field extraction makes of the input record [v] of [body] when the
    clock reads its [k]-th value: each string field is the conversion of
    the expression the source writes for it. *)
Definition Extracted (env : Env) (body v : value) (k : nat) (r : WorkspaceBatch) : Prop :=
  let str := JS.ToString (NumberToString env) (maxNesting env) in
  str (JS.or (JS.get v "workspaceId") (Str "")) = Normal (workspaceId r) /\
  str (JS.or (JS.get v "workspaceName") (Str "")) = Normal (workspaceName r) /\
  str (JS.or (JS.or (JS.get body "extensionVersion") (JS.get v "extensionVersion"))
         (Str "")) = Normal (extensionVersion r) /\
  str (JS.or (JS.or (JS.get body "generatedAt") (JS.get v "generatedAt"))
         (Str (toISOString env (clock env k)))) = Normal (generatedAt r) /\
  str (JS.or (JS.get v "findingsFile") (Str "")) = Normal (findingsFile r) /\
  findings r = findingsOf v /\
  findingsCount r = findingsCountOf v.

(** How a declared string field [field] of a normalised record follows from
    the caller's value [x]: a string is kept; a missing or falsy value gives
    the empty string; any other value gives its string conversion. *)
Definition stringRule (env : Env) (x : value) (field : string) : Prop :=
  (forall s, x = Str s -> field = s) /\
  (JS.truthy x = false -> field = "") /\
  (JS.truthy x = true -> JS.ToString (NumberToString env) (maxNesting env) x = Normal field).

(** A step of the server that reads the clock at most: the store, the
    identifiers and the trace are as before. *)
Definition onlyClock (w w' : World) : Prop :=
  minted w' = minted w /\ store w' = store w /\ trace w' = trace w.

(** A value in which no object, at any depth, has an own property named
    [toString]. *)
Fixpoint plain (v : value) : bool :=
  match v with
  | Arr elements => forallb plain elements
  | Obj props =>
      negb (JS.hasOwn "toString" props)
      && forallb (fun kv => plain (snd kv)) props
  | _ => true
  end.

(** The body the handler normalises: [req.body || {}]. *)
Definition bodyOf (req : Request) : value := JS.or (body req) (Obj []).

(** The document the handler builds from a normalised record, up to the
    time of receipt. *)
Definition docOf (username : value) (r : WorkspaceBatch) (d : Doc) : Prop :=
  doc_username d = username /\
  doc_workspaceId d = workspaceId r /\
  doc_workspaceName d = workspaceName r /\
  doc_extensionVersion d = extensionVersion r /\
  doc_generatedAt d = generatedAt r /\
  doc_findingsFile d = findingsFile r /\
  doc_findingsCount d = Num.or (findingsCount r) Num.zero /\
  doc_findings d = findings r.

(** The runs of the handler, one constructor per path through its body. *)
Inductive Run (env : Env) (req : Request) (w : World) : Response -> World -> Prop :=
| RunMissingToken :
    Text.isEmpty (bearerToken req) = true ->
    Run env req w (mkResponse 401 (Failure "Missing Bearer token")) w
| RunIdentityFailed e w1 :
    Text.isEmpty (bearerToken req) = false ->
    githubUsernameFromToken env (bearerToken req) w = (Throw e, w1) ->
    Run env req w (mkResponse 500 (Failure (errorString e))) w1
| RunNormalizeFailed username w1 e w2 :
    Text.isEmpty (bearerToken req) = false ->
    githubUsernameFromToken env (bearerToken req) w = (Normal username, w1) ->
    normalizeToWorkspaces env (bodyOf req) (note (Normalization (bodyOf req)) w1)
      = (Throw e, w2) ->
    Run env req w (mkResponse 500 (Failure (errorString e))) w2
| RunEmptyBatch username w1 w2 :
    Text.isEmpty (bearerToken req) = false ->
    githubUsernameFromToken env (bearerToken req) w = (Normal username, w1) ->
    normalizeToWorkspaces env (bodyOf req) (note (Normalization (bodyOf req)) w1)
      = (Normal [], w2) ->
    Run env req w (mkResponse 400 (Failure "Invalid payload")) w2
| RunStored username w1 records w2 docs w3 ids w4 :
    Text.isEmpty (bearerToken req) = false ->
    githubUsernameFromToken env (bearerToken req) w = (Normal username, w1) ->
    normalizeToWorkspaces env (bodyOf req) (note (Normalization (bodyOf req)) w1)
      = (Normal records, w2) ->
    records <> [] ->
    mapM (buildDoc env username) records w2 = (Normal docs, w3) ->
    insertMany env docs w3 = (Normal ids, w4) ->
    Run env req w
      (mkResponse 200
         (Success username (List.length docs) (totalFindingsOf docs) (map hex ids)))
      w4
| RunStoreFailed username w1 records w2 docs w3 e w4 :
    Text.isEmpty (bearerToken req) = false ->
    githubUsernameFromToken env (bearerToken req) w = (Normal username, w1) ->
    normalizeToWorkspaces env (bodyOf req) (note (Normalization (bodyOf req)) w1)
      = (Normal records, w2) ->
    records <> [] ->
    mapM (buildDoc env username) records w2 = (Normal docs, w3) ->
    insertMany env docs w3 = (Throw e, w4) ->
    Run env req w (mkResponse 500 (Failure (errorString e))) w4.

(** The events a run added to the trace. *)
Definition newEvents (w w' : World) : list Event :=
  skipn (List.length (trace w)) (trace w').

(** ** More vocabulary *)

(** How many arrays inside one another [v] holds, counting [v] itself: 0
    for anything but an array. *)
Fixpoint nesting (v : value) : nat :=
  match v with
  | Arr elements => S (list_max (map nesting elements))
  | _ => 0
  end.

(** No array of [v], at any depth and inside any object, holds more than
    [limit] arrays inside one another. *)
Fixpoint shallow (limit : nat) (v : value) : bool :=
  match v with
  | Arr elements =>
      Nat.leb (S (list_max (map nesting elements))) limit
      && forallb (shallow limit) elements
  | Obj props => forallb (fun kv => shallow limit (snd kv)) props
  | _ => true
  end.

(** A body every part of which [String] converts: no object with an own
    [toString] property, no array nested deeper than the runtime converts. *)
Definition tame (env : Env) (v : value) : bool :=
  plain v && shallow (maxNesting env) v.



(** [P now x y] for the elements of two sequences at the same index, where
    [now] counts from [start] and grows by [step x] past each [x]. *)
Fixpoint Forall2From {A B} (P : nat -> A -> B -> Prop) (step : A -> nat)
    (start : nat) (xs : list A) (ys : list B) : Prop :=
  match xs, ys with
  | [], [] => True
  | x :: xs', y :: ys' => P start x y /\ Forall2From P step (start + step x) xs' ys'
  | _, _ => False
  end.

(** The first code unit of [s] is white space. *)
Definition headWhite (s : string) : bool :=
  match s with
  | EmptyString => false
  | String c _ => Text.isWhiteSpace c
  end.

(** The last code unit of [s] is white space. *)
Fixpoint lastWhite (s : string) : bool :=
  match s with
  | EmptyString => false
  | String c EmptyString => Text.isWhiteSpace c
  | String _ rest => lastWhite rest
  end.

(** The value whose conversion becomes the [generatedAt] of the record of
    [v], before the clock is considered: [body?.generatedAt || v?.generatedAt]. *)
Definition suppliedTime (body v : value) : value :=
  JS.or (JS.get body "generatedAt") (JS.get v "generatedAt").

(** The clock readings the record of [v] needs: one when no time is
    supplied. *)
Definition reads (body v : value) : nat :=
  if JS.truthy (suppliedTime body v) then 0 else 1.

(** How many input records of [body] supply no time of their own or of the
    request. *)
Definition untimed (body : value) : nat :=
  List.length
    (filter (fun v => negb (JS.truthy (suppliedTime body v))) (inputRecords body)).

(** The entries a run appended to the store. *)
Definition newEntries (w w' : World) : list (ObjectId * Doc) :=
  skipn (List.length (store w)) (store w').

(** A body none of whose properties is set: [{}], and every value that is
    not an object (an array, a string, a number). *)
Definition fieldless (body : value) : Prop :=
  forall k, JS.get body k = Undefined.

(** The record of a fieldless body, when the clock reads [now]. *)
Definition blankRecord (env : Env) (now : Date) : WorkspaceBatch :=
  mkBatch "" "" "" (toISOString env now) [] Num.zero "".

(** How many findings the input records of [body] carry. *)
Definition findingsTotal (body : value) : nat :=
  list_sum (map (fun v => List.length (findingsOf v)) (inputRecords body)).

(** ** The single-workspace server ([src/server.js]) *)

Module Legacy.

(** The document the single-workspace handler stores; [findings] is kept as
    the JavaScript value the handler puts there. *)
Record Doc : Type := mkDoc {
  doc_username : value;
  doc_workspaceId : string;
  doc_workspaceName : string;
  doc_extensionVersion : string;
  doc_generatedAt : string;
  doc_receivedAt : Date;
  doc_findings : value
}.

Inductive Payload : Type :=
| Failure (error : string)
| Success (username : value) (batchId : string).

Record Response : Type := mkResponse {
  statusCode : nat;
  payload : Payload
}.

Inductive Event : Type :=
| IdentityCall (token : string)
| InsertOne (doc : Doc).

(** The collaborators: those of the multi-workspace server for the runtime,
    the clock, the identity service and the identifiers, and a fault of the
    store on the write of one document (the error [insertOne] rejects
    with). *)
Record Oracles : Type := mkOracles {
  base : Env;
  insertFault : list (ObjectId * Doc) -> Doc -> option Error
}.

Record World : Type := mkWorld {
  ticks : nat;
  minted : nat;
  store : list (ObjectId * Doc);
  trace : list Event
}.

Definition M (A : Type) : Type := World -> Completion A * World.

Definition ret {A} (a : A) : M A := fun w => (Normal a, w).

Definition throw {A} (e : Error) : M A := fun w => (Throw e, w).

Definition bind {A B} (m : M A) (k : A -> M B) : M B :=
  fun w =>
    match m w with
    | (Normal a, w') => k a w'
    | (Throw e, w') => (Throw e, w')
    end.

Definition tryCatch {A} (m : M A) (h : Error -> M A) : M A :=
  fun w =>
    match m w with
    | (Normal a, w') => (Normal a, w')
    | (Throw e, w') => h e w'
    end.

Definition lift {A} (c : Completion A) : M A := fun w => (c, w).

Declare Scope legacy_scope.
Delimit Scope legacy_scope with legacy.
Notation "x <- m ;; k" := (bind m (fun x => k))
  (at level 61, m at next level, right associativity) : legacy_scope.
Notation "m ;;; k" := (bind m (fun _ => k))
  (at level 61, right associativity) : legacy_scope.

Definition note (ev : Event) (w : World) : World :=
  mkWorld (ticks w) (minted w) (store w) (trace w ++ [ev]).

Definition emit (ev : Event) : M unit := fun w => (Normal tt, note ev w).

Section Server.

Variable env : Oracles.

Local Open Scope legacy_scope.

(** [new Date()] *)
Definition newDate : M Date :=
  fun w => (Normal (clock (base env) (ticks w)),
            mkWorld (S (ticks w)) (minted w) (store w) (trace w)).

(** [String(v)] *)
Definition toStr (v : value) : M string :=
  lift (JS.ToString (NumberToString (base env)) (maxNesting (base env)) v).

(** [new Date().toISOString()] *)
Definition nowISO : M value :=
  d <- newDate ;; ret (Str (toISOString (base env) d)).

(** [v || e] for an operand [e] with effects. *)
Definition orElse (v : value) (e : M value) : M value :=
  if JS.truthy v then ret v else e.

(** [githubUsernameFromToken(token)], the same text as in the
    multi-workspace server. *)
Definition githubUsernameFromToken (token : string) : M value :=
  emit (IdentityCall token) ;;;
  r <- lift (identityService (base env) token) ;;
  if negb (ok r) then
    let body_text := match text r with Some t => t | None => "" end in
    throw (mkError "Error"
             (Text.trim ("GitHub auth failed: HTTP " ++ Text.ofNat (status r)
                        ++ " " ++ body_text)%string))
  else
    data <- lift (json r) ;;
    if negb (JS.truthy (JS.get data "login")) then
      throw (mkError "Error" "GitHub response missing login")
    else ret (JS.get data "login").

(** [batches.insertOne(doc)]: the store gives the document a fresh
    identifier and appends it; [result.insertedId] is that identifier.  On a
    fault the call rejects and the document is not stored. *)
Definition insertOne (doc : Doc) : M ObjectId :=
  fun w =>
    let id := newObjectId (base env) (minted w) in
    match insertFault env (store w) doc with
    | None =>
        (Normal id,
         mkWorld (ticks w) (S (minted w)) (store w ++ [(id, doc)])
           (trace w ++ [InsertOne doc]))
    | Some e =>
        (Throw e,
         mkWorld (ticks w) (S (minted w)) (store w) (trace w ++ [InsertOne doc]))
    end.

(** The handler of [POST /v1/findings] of the single-workspace server.
    [body] is truthy, so reading its properties without [?.] cannot throw. *)
Definition postFindings (req : Request) : M Response :=
  tryCatch
    (let token := bearerToken req in
     if Text.isEmpty token then
       ret (mkResponse 401 (Failure "Missing Bearer token"))
     else
       username <- githubUsernameFromToken token ;;
       let body := JS.or (body req) (Obj []) in
       let findings :=
         if JS.isArray (JS.get body "findings") then JS.get body "findings"
         else Arr [] in
       if negb (JS.isArray findings) then
         ret (mkResponse 400 (Failure "findings must be an array"))
       else
         wid <- toStr (JS.or (JS.get body "workspaceId") (Str "")) ;;
         wname <- toStr (JS.or (JS.get body "workspaceName") (Str "")) ;;
         version <- toStr (JS.or (JS.get body "extensionVersion") (Str "")) ;;
         stamp <- orElse (JS.get body "generatedAt") nowISO ;;
         generated <- toStr stamp ;;
         received <- newDate ;;
         let doc := mkDoc username wid wname version generated received findings in
         result <- insertOne doc ;;
         ret (mkResponse 200 (Success username (hex result))))
    (fun e => ret (mkResponse 500 (Failure (errorString e)))).

End Server.

(** The events a run added to the trace, and the entries it appended to the
    store. *)
Definition newEvents (w w' : World) : list Event :=
  skipn (List.length (trace w)) (trace w').

Definition newEntries (w w' : World) : list (ObjectId * Doc) :=
  skipn (List.length (store w)) (store w').

(** The stub collaborators of the test bench, with a store that never
    faults, and a fresh process. *)
Definition bench : Oracles := mkOracles Bench.env (fun _ _ => None).

Definition boot : World := mkWorld 0 0 [] [].

End Legacy.

(** A world of the single-workspace server and one of the multi-workspace
    server at the same point: as many clock readings and identifiers used. *)
Definition aligned (lw : Legacy.World) (w : World) : Prop :=
  Legacy.ticks lw = ticks w /\ Legacy.minted lw = minted w.

(** A document of the multi-workspace server that carries what a document
    of the single-workspace server carries. *)
Definition sameDocument (ld : Legacy.Doc) (d : Doc) : Prop :=
  Legacy.doc_username ld = doc_username d
  /\ Legacy.doc_workspaceId ld = doc_workspaceId d
  /\ Legacy.doc_workspaceName ld = doc_workspaceName d
  /\ Legacy.doc_extensionVersion ld = doc_extensionVersion d
  /\ Legacy.doc_generatedAt ld = doc_generatedAt d
  /\ Legacy.doc_receivedAt ld = doc_receivedAt d
  /\ Legacy.doc_findings ld = Arr (doc_findings d).

(** The document the single-workspace handler builds for a request, from
    the username and the converted strings. *)
Definition legacyDoc (lenv : Legacy.Oracles) (req : Request) (lw : Legacy.World)
    (u : value) (wid wname ver gen : string) : Legacy.Doc :=
  Legacy.mkDoc u wid wname ver gen
    (clock (Legacy.base lenv) (Legacy.ticks lw + reads (bodyOf req) (bodyOf req)))
    (Arr (findingsOf (bodyOf req))).

(** * Properties *)

(** ** Numbers *)

Lemma digits2_iter_xO (p k : positive) :
  digits2_pos (Pos.iter xO p k) = (digits2_pos p + k)%positive.
Proof.
  induction k as [|k IH] using Pos.peano_ind.
  - simpl. now rewrite Pos.add_1_r.
  - rewrite Pos.iter_succ. simpl. rewrite IH. now rewrite Pos.add_succ_r.
Qed.

Lemma iter_xO_value (p k : positive) :
  Z.pos (Pos.iter xO p k) = (Z.pos p * 2 ^ Z.pos k)%Z.
Proof.
  induction k as [|k IH] using Pos.peano_ind.
  - simpl. lia.
  - rewrite Pos.iter_succ, Pos2Z.inj_xO, IH, Pos2Z.inj_succ, Z.pow_succ_r by lia.
    ring.
Qed.

Lemma digits2_bound (p : positive) :
  forall k : Z, (Z.pos p < 2 ^ k)%Z -> (Z.pos (digits2_pos p) <= k)%Z.
Proof.
  induction p as [q IH|q IH|]; intros k H; simpl digits2_pos.
  - assert (0 < k)%Z by (destruct k; simpl in H; lia).
    replace k with (Z.succ (k - 1)) in H by lia.
    rewrite Z.pow_succ_r in H by lia.
    specialize (IH (k - 1)%Z). lia.
  - assert (0 < k)%Z by (destruct k; simpl in H; lia).
    replace k with (Z.succ (k - 1)) in H by lia.
    rewrite Z.pow_succ_r in H by lia.
    specialize (IH (k - 1)%Z). lia.
  - destruct k; simpl in H; lia.
Qed.

(** Rounding a mantissa that already has 53 digits, at an exponent in range,
    changes nothing. *)
Lemma round_exact (s : bool) (m : positive) (e : Z) :
  Z.pos (digits2_pos m) = 53%Z -> (-1074 <= e <= 971)%Z ->
  binary_round_aux Num.prec Num.emax s (Z.pos m) e loc_Exact = S754_finite s m e.
Proof.
  intros Hd He.
  assert (Hshift : (fexp Num.prec Num.emax (Zdigits2 (Z.pos m) + e) - e = 0)%Z).
  { unfold fexp, emin, Num.prec, Num.emax. simpl Zdigits2. lia. }
  unfold binary_round_aux, shr_fexp. rewrite Hshift. simpl shr.
  cbv [shr_record_of_loc loc_of_shr_record shr_m round_nearest_even].
  rewrite Hshift. simpl shr. cbv [shr_m].
  unfold Num.emax, Num.prec.
  destruct (Z.leb_spec e (1024 - 53)); [reflexivity|lia].
Qed.




Lemma shl_value p k : (0 <= k)%Z -> Z.pos (Num.shl p k) = (Z.pos p * 2 ^ k)%Z.
Proof.
  destruct k as [|q|q]; simpl Num.shl; intros H; try lia.
  apply iter_xO_value.
Qed.

Lemma shl_digits p k :
  (0 <= k)%Z -> Z.pos (digits2_pos (Num.shl p k)) = (Z.pos (digits2_pos p) + k)%Z.
Proof.
  destruct k as [|q|q]; simpl Num.shl; intros H; try lia.
  rewrite digits2_iter_xO. lia.
Qed.

Lemma shl_shl p j k :
  (0 <= j)%Z -> (0 <= k)%Z -> Num.shl (Num.shl p j) k = Num.shl p (j + k).
Proof.
  intros Hj Hk. apply Pos2Z.inj.
  rewrite !shl_value, Z.pow_add_r by lia. ring.
Qed.

Lemma shl_align_down m e e' :
  (e' <= e)%Z -> shl_align m e e' = (Num.shl m (e - e'), e').
Proof.
  intros H. unfold shl_align, Num.shl.
  destruct (e' - e)%Z as [|q|q] eqn:E; try lia.
  - replace (e - e')%Z with 0%Z by lia. f_equal. lia.
  - replace (e - e')%Z with (Z.pos q) by lia. reflexivity.
Qed.

Lemma shl_align_up m e e' :
  (e <= e')%Z -> shl_align m e e' = (m, e).
Proof.
  intros H. unfold shl_align.
  destruct (e' - e)%Z as [|q|q] eqn:E; try lia; reflexivity.
Qed.

Lemma shr_exact (n q : positive) :
  iter_pos shr_1 n (Build_shr_record (Z.pos (Pos.iter xO q n)) false false)
  = Build_shr_record (Z.pos q) false false.
Proof.
  revert q. induction n as [n IH|n IH|]; intros q; simpl.
  - now rewrite !IH.
  - now rewrite !IH.
  - reflexivity.
Qed.

Lemma ofZ_pos_form (p : positive) :
  (Z.pos p < 2 ^ 53)%Z ->
  Num.ofZ (Z.pos p)
  = S754_finite false (Num.shl p (53 - Z.pos (digits2_pos p)))
      (Z.pos (digits2_pos p) - 53).
Proof.
  intros Hp. pose proof (digits2_bound p 53 Hp) as Hd.
  unfold Num.ofZ, binary_normalize, binary_round.
  assert (Hf : fexp Num.prec Num.emax (Z.pos (digits2_pos p) + 0)
               = (Z.pos (digits2_pos p) - 53)%Z).
  { unfold fexp, emin, Num.prec, Num.emax. lia. }
  rewrite Hf, shl_align_down by lia.
  rewrite round_exact.
  - do 2 f_equal. lia.
  - rewrite shl_digits; lia.
  - lia.
Qed.

Lemma normalize_shifted (p : positive) (k : Z) :
  (Z.pos p < 2 ^ 53)%Z -> (0 <= k <= 1000)%Z ->
  binary_normalize Num.prec Num.emax (Z.pos (Num.shl p k)) (- k) false
  = Num.ofZ (Z.pos p).
Proof.
  intros Hp Hk. pose proof (digits2_bound p 53 Hp) as Hd.
  rewrite ofZ_pos_form by exact Hp.
  unfold binary_normalize, binary_round.
  assert (Hf : fexp Num.prec Num.emax (Z.pos (digits2_pos (Num.shl p k)) + - k)
               = (Z.pos (digits2_pos p) - 53)%Z).
  { rewrite shl_digits by lia. unfold fexp, emin, Num.prec, Num.emax. lia. }
  rewrite Hf.
  destruct (Z_le_gt_dec (Z.pos (digits2_pos p) - 53) (- k)) as [Hle|Hgt].
  - rewrite shl_align_down by lia. rewrite shl_shl by lia.
    replace (k + (- k - (Z.pos (digits2_pos p) - 53)))%Z
      with (53 - Z.pos (digits2_pos p))%Z by lia.
    apply round_exact; [rewrite shl_digits; lia|lia].
  - rewrite shl_align_up by lia.
    unfold binary_round_aux, shr_fexp.
    assert (Hs : (fexp Num.prec Num.emax (Zdigits2 (Z.pos (Num.shl p k)) + - k) - - k
                  = Z.pos (digits2_pos p) - 53 + k)%Z).
    { cbv [Zdigits2]. rewrite Hf. lia. }
    rewrite Hs.
    destruct (Z.pos (digits2_pos p) - 53 + k)%Z as [|n|n] eqn:En; try lia.
    unfold shr. cbv [shr_record_of_loc].
    replace (Num.shl p k) with (Pos.iter xO (Num.shl p (53 - Z.pos (digits2_pos p))) n).
    2:{ change (Pos.iter xO ?x n) with (Num.shl x (Z.pos n)).
        rewrite shl_shl by lia. f_equal. lia. }
    rewrite shr_exact.
    cbv [shr_m loc_of_shr_record round_nearest_even].
    assert (Hs2 : (fexp Num.prec Num.emax
                     (Zdigits2 (Z.pos (Num.shl p (53 - Z.pos (digits2_pos p))))
                      + (- k + Z.pos n)) - (- k + Z.pos n) = 0)%Z).
    { cbv [Zdigits2]. rewrite shl_digits by lia.
      unfold fexp, emin, Num.prec, Num.emax. lia. }
    rewrite Hs2. simpl shr. cbv [shr_m].
    unfold Num.emax, Num.prec.
    destruct (Z.leb_spec (- k + Z.pos n) (1024 - 53)); [|lia].
    f_equal. lia.
Qed.

Lemma add_ofZ_pos (a b : positive) :
  (Z.pos a + Z.pos b < 2 ^ 53)%Z ->
  Num.add (Num.ofZ (Z.pos a)) (Num.ofZ (Z.pos b)) = Num.ofZ (Z.pos (a + b)).
Proof.
  intros H.
  assert (Ha : (Z.pos a < 2 ^ 53)%Z) by lia.
  assert (Hb : (Z.pos b < 2 ^ 53)%Z) by lia.
  pose proof (digits2_bound a 53 Ha) as Hda.
  pose proof (digits2_bound b 53 Hb) as Hdb.
  rewrite (ofZ_pos_form a Ha), (ofZ_pos_form b Hb).
  unfold Num.add, SFadd.
  remember (Z.pos (digits2_pos a) - 53)%Z as ea eqn:Hea.
  remember (Z.pos (digits2_pos b) - 53)%Z as eb eqn:Heb.
  remember (Z.min ea eb) as ez eqn:Hez.
  rewrite !shl_align_down by lia. cbv [fst cond_Zopp].
  rewrite !shl_shl by lia.
  replace (53 - Z.pos (digits2_pos a) + (ea - ez))%Z with (- ez)%Z by lia.
  replace (53 - Z.pos (digits2_pos b) + (eb - ez))%Z with (- ez)%Z by lia.
  replace (Z.pos (Num.shl a (- ez)) + Z.pos (Num.shl b (- ez)))%Z
    with (Z.pos (Num.shl (a + b) (- ez))).
  2:{ rewrite !shl_value by lia. lia. }
  replace ez with (- (- ez))%Z at 2 by lia.
  apply normalize_shifted; lia.
Qed.

Lemma add_ofNat (a b : nat) :
  (Z.of_nat (a + b) < 2 ^ 53)%Z ->
  Num.add (Num.ofNat a) (Num.ofNat b) = Num.ofNat (a + b).
Proof.
  intros H. unfold Num.ofNat. rewrite Nat2Z.inj_add in *.
  destruct (Z.of_nat a) as [|p|p] eqn:Ea; try lia;
    destruct (Z.of_nat b) as [|q|q] eqn:Eb; try lia.
  - reflexivity.
  - change (0 + Z.pos q)%Z with (Z.pos q).
    change (Num.ofZ 0) with (S754_zero false).
    rewrite (ofZ_pos_form q) by lia. reflexivity.
  - change (Z.pos p + 0)%Z with (Z.pos p).
    change (Num.ofZ 0) with (S754_zero false).
    rewrite (ofZ_pos_form p) by lia. reflexivity.
  - now apply add_ofZ_pos.
Qed.

(** Adding natural numbers from the left is exact while the total is below
    2^53. *)
Lemma sum_ofNat (ns : list nat) :
  (Z.of_nat (list_sum ns) < 2 ^ 53)%Z ->
  Num.sum (map Num.ofNat ns) = Num.ofNat (list_sum ns).
Proof.
  unfold Num.sum. change Num.zero with (Num.ofNat 0).
  change (list_sum ns) with (0 + list_sum ns)%nat. generalize 0%nat as acc.
  induction ns as [|n ns IH]; intros acc H; simpl.
  - now rewrite Nat.add_0_r.
  - simpl in H. rewrite add_ofNat by lia. rewrite IH by lia.
    f_equal. lia.
Qed.

(** ** Strings *)

Lemma trimStart_white (s : string) :
  Text.allWhiteSpace s = true -> Text.trimStart s = "".
Proof.
  induction s as [|c s IH]; simpl; [reflexivity|].
  intros H. apply andb_true_iff in H as [Hc Hs].
  rewrite Hc. auto.
Qed.

Lemma trim_white (s : string) :
  Text.allWhiteSpace s = true -> Text.trim s = "".
Proof.
  intros H. unfold Text.trim. now rewrite trimStart_white.
Qed.

Lemma trimEnd_empty_white (s : string) :
  Text.trimEnd s = "" -> Text.allWhiteSpace s = true.
Proof.
  induction s as [|c s IH]; simpl; [reflexivity|].
  destruct (Text.trimEnd s) eqn:E; [|discriminate].
  destruct (Text.isWhiteSpace c); [|discriminate].
  intros _. now rewrite IH.
Qed.

Lemma trimStart_head (s : string) :
  Text.allWhiteSpace (Text.trimStart s) = true -> Text.allWhiteSpace s = true.
Proof.
  induction s as [|c s IH]; simpl; [reflexivity|].
  destruct (Text.isWhiteSpace c) eqn:Hc; simpl.
  - exact IH.
  - rewrite Hc. discriminate.
Qed.

Lemma trim_empty_iff (s : string) :
  Text.trim s = "" <-> Text.allWhiteSpace s = true.
Proof.
  split; [|apply trim_white].
  unfold Text.trim. intros H.
  apply trimStart_head, trimEnd_empty_white, H.
Qed.

Lemma startsWith_append (p t : string) :
  Text.startsWith p (p ++ t) = true.
Proof.
  unfold Text.startsWith.
  induction p as [|c p IH]; simpl.
  - now destruct t.
  - destruct (ascii_dec c c) as [_|n]; [exact IH|now elim n].
Qed.

Lemma slice_append (p t : string) :
  Text.slice (String.length p) (p ++ t) = t.
Proof.
  induction p as [|c p IH]; simpl; [now destruct t|exact IH].
Qed.

(** ** The monad *)

Lemma bind_step {A B} (m : M A) (k : A -> M B) w a w1 :
  m w = (Normal a, w1) -> bind m k w = k a w1.
Proof. unfold bind. now intros ->. Qed.

Lemma bind_abort {A B} (m : M A) (k : A -> M B) w e w1 :
  m w = (Throw e, w1) -> bind m k w = (Throw e, w1).
Proof. unfold bind. now intros ->. Qed.

(** ** Field extraction *)

Section Extraction.

Variable env : Env.

Lemma onlyClock_refl w : onlyClock w w.
Proof. now repeat split. Qed.

Lemma onlyClock_trans w1 w2 w3 :
  onlyClock w1 w2 -> onlyClock w2 w3 -> onlyClock w1 w3.
Proof.
  intros (a & b & c) (a' & b' & c'). repeat split; congruence.
Qed.

Lemma orElse_nowISO_run v w :
  exists w',
    orElse v (nowISO env) w
    = (Normal (JS.or v (Str (toISOString env (clock env (ticks w))))), w')
    /\ onlyClock w w'.
Proof.
  unfold orElse, JS.or. destruct (JS.truthy v).
  - exists w. split; [reflexivity|apply onlyClock_refl].
  - eexists. split; [reflexivity|]. now repeat split.
Qed.

Lemma or_idem v : JS.or v v = v.
Proof. unfold JS.or. now destruct (JS.truthy v). Qed.

Lemma multiRecord_run body v w :
  exists w',
    onlyClock w w' /\
    ((exists e, multiRecord env body v w = (Throw e, w')) \/
     (exists r, multiRecord env body v w = (Normal r, w')
                /\ Extracted env body v (ticks w) r)).
Proof.
  unfold multiRecord, Extracted.
  destruct (orElse_nowISO_run
              (JS.or (JS.get body "generatedAt") (JS.get v "generatedAt")) w)
    as (w1 & Hstamp & Hclock).
  unfold bind, toStr, lift. rewrite Hstamp.
  destruct (JS.ToString _ _ (JS.or (JS.get v "workspaceId") _)) eqn:E1;
    [|exists w; split; [apply onlyClock_refl|left; eauto]].
  destruct (JS.ToString _ _ (JS.or (JS.get v "workspaceName") _)) eqn:E2;
    [|exists w; split; [apply onlyClock_refl|left; eauto]].
  destruct (JS.ToString _ _ (JS.or (JS.or (JS.get body "extensionVersion") _) _)) eqn:E3;
    [|exists w; split; [apply onlyClock_refl|left; eauto]].
  destruct (JS.ToString _ _ (JS.or (JS.or (JS.get body "generatedAt") _) _)) eqn:E4;
    [|exists w1; split; [exact Hclock|left; eauto]].
  destruct (JS.ToString _ _ (JS.or (JS.get v "findingsFile") _)) eqn:E5;
    [|exists w1; split; [exact Hclock|left; eauto]].
  exists w1. split; [exact Hclock|]. right. eexists. split; [reflexivity|].
  simpl. now repeat split.
Qed.

Lemma flatRecord_run body w :
  exists w',
    onlyClock w w' /\
    ((exists e, flatRecord env body w = (Throw e, w')) \/
     (exists r, flatRecord env body w = (Normal r, w')
                /\ Extracted env body body (ticks w) r)).
Proof.
  unfold flatRecord, Extracted. rewrite !or_idem.
  destruct (orElse_nowISO_run (JS.get body "generatedAt") w)
    as (w1 & Hstamp & Hclock).
  unfold bind, toStr, lift. rewrite Hstamp.
  destruct (JS.ToString _ _ (JS.or (JS.get body "workspaceId") _)) eqn:E1;
    [|exists w; split; [apply onlyClock_refl|left; eauto]].
  destruct (JS.ToString _ _ (JS.or (JS.get body "workspaceName") _)) eqn:E2;
    [|exists w; split; [apply onlyClock_refl|left; eauto]].
  destruct (JS.ToString _ _ (JS.or (JS.get body "extensionVersion") _)) eqn:E3;
    [|exists w; split; [apply onlyClock_refl|left; eauto]].
  destruct (JS.ToString _ _ (JS.or (JS.get body "generatedAt") _)) eqn:E4;
    [|exists w1; split; [exact Hclock|left; eauto]].
  destruct (JS.ToString _ _ (JS.or (JS.get body "findingsFile") _)) eqn:E5;
    [|exists w1; split; [exact Hclock|left; eauto]].
  exists w1. split; [exact Hclock|]. right. eexists. split; [reflexivity|].
  simpl. now repeat split.
Qed.

Lemma normalize_multi body workspaces :
  JS.get body "workspaces" = Arr workspaces ->
  normalizeToWorkspaces env body = mapM (multiRecord env body) workspaces.
Proof.
  intros H. unfold normalizeToWorkspaces. rewrite H.
  destruct body; simpl in H; try discriminate. reflexivity.
Qed.

Lemma normalize_flat body :
  JS.isArray (JS.get body "workspaces") = false ->
  normalizeToWorkspaces env body
  = bind (flatRecord env body) (fun r => ret [r]).
Proof.
  intros H. unfold normalizeToWorkspaces. rewrite H.
  now rewrite andb_false_r.
Qed.

Lemma mapM_multiRecord_run body workspaces :
  forall w c w',
    mapM (multiRecord env body) workspaces w = (c, w') ->
    onlyClock w w' /\
    forall rs, c = Normal rs ->
      Forall2 (fun v r => exists k, Extracted env body v k r) workspaces rs.
Proof.
  induction workspaces as [|v vs IH]; simpl; intros w c w' H.
  - inversion H; subst. split; [apply onlyClock_refl|].
    intros rs Hrs. inversion Hrs. constructor.
  - unfold bind in H.
    destruct (multiRecord_run body v w) as (w1 & Hc1 & [(e & Hv)|(r & Hv & Hr)]);
      rewrite Hv in H.
    + inversion H; subst. split; [exact Hc1|discriminate].
    + destruct (mapM (multiRecord env body) vs w1) as [[rs'|e] w2] eqn:Hvs;
        destruct (IH _ _ _ Hvs) as (Hc2 & Hall); inversion H; subst.
      * split; [eapply onlyClock_trans; eauto|].
        intros rs Hrs. inversion Hrs; subst. constructor; eauto.
      * split; [eapply onlyClock_trans; eauto|discriminate].
Qed.

(** Normalisation reads the clock at most, and each record it returns is
    the extraction of the input record at the same index. *)
Lemma normalize_run body w c w' :
  normalizeToWorkspaces env body w = (c, w') ->
  onlyClock w w' /\
  forall rs, c = Normal rs ->
    Forall2 (fun v r => exists k, Extracted env body v k r) (inputRecords body) rs.
Proof.
  intros H. unfold inputRecords.
  destruct (JS.get body "workspaces") eqn:Hws;
    try (rewrite normalize_flat in H by (rewrite Hws; reflexivity);
         unfold bind in H;
         destruct (flatRecord_run body w) as (w1 & Hc & [(e & Hr)|(r & Hr & Hx)]);
         rewrite Hr in H; inversion H; subst;
         (split; [exact Hc|]); intros rs Hrs; inversion Hrs; subst;
         repeat constructor; eauto).
  rewrite (normalize_multi _ _ Hws) in H.
  eapply mapM_multiRecord_run; eauto.
Qed.

Lemma normalize_records body w rs w' :
  normalizeToWorkspaces env body w = (Normal rs, w') ->
  Forall2 (fun v r => exists k, Extracted env body v k r) (inputRecords body) rs.
Proof. intros H. eapply normalize_run; eauto. Qed.

End Extraction.

(** ** The request pipeline *)

Section Pipeline.

Variable env : Env.

Lemma buildDoc_run username r w :
  exists d w',
    buildDoc env username r w = (Normal d, w')
    /\ docOf username r d /\ onlyClock w w'.
Proof.
  unfold buildDoc, bind, newDate, ret. do 2 eexists.
  split; [reflexivity|]. split; now repeat split.
Qed.

(** Building the documents cannot fail: one document per record, in
    order. *)
Lemma buildDocs_run username records :
  forall w, exists docs w',
    mapM (buildDoc env username) records w = (Normal docs, w')
    /\ Forall2 (docOf username) records docs /\ onlyClock w w'.
Proof.
  induction records as [|r rs IH]; intros w; simpl.
  - exists [], w. split; [reflexivity|]. split; [constructor|apply onlyClock_refl].
  - destruct (buildDoc_run username r w) as (d & w1 & Hd & Hdoc & Hc1).
    destruct (IH w1) as (ds & w2 & Hds & Hdocs & Hc2).
    exists (d :: ds), w2. unfold bind. rewrite Hd, Hds.
    split; [reflexivity|]. split; [now constructor|].
    eapply onlyClock_trans; eauto.
Qed.

(** The identity call records itself and changes nothing else. *)
Lemma identity_run token w c w' :
  githubUsernameFromToken env token w = (c, w') ->
  w' = note (IdentityCall token) w.
Proof.
  unfold githubUsernameFromToken, bind, emit, lift, throw, ret.
  destruct (identityService env token) as [r|e]; [|now inversion 1].
  destruct (ok r); simpl; [|now inversion 1].
  destruct (json r) as [data|e]; [|now inversion 1].
  destruct (JS.truthy (JS.get data "login")); simpl; now inversion 1.
Qed.

(** A successful write appends the batch to the store, each document next
    to the identifier reported at its index. *)
Lemma insertMany_normal docs w ids w' :
  insertMany env docs w = (Normal ids, w') ->
  List.length ids = List.length docs
  /\ store w' = store w ++ combine ids docs
  /\ trace w' = trace w ++ [InsertMany docs].
Proof.
  unfold insertMany.
  destruct (storageFault env (store w) docs) as [[k e]|]; [discriminate|].
  intros H. inversion H; subst; simpl.
  split; [|now split]. now rewrite length_map, length_seq.
Qed.

Lemma insertMany_trace docs w c w' :
  insertMany env docs w = (c, w') -> trace w' = trace w ++ [InsertMany docs].
Proof.
  unfold insertMany.
  destruct (storageFault env (store w) docs) as [[k e]|];
    intros H; inversion H; subst; reflexivity.
Qed.

(** The handler always answers, along one of the paths of [Run]: no
    exception escapes it. *)
Lemma postFindings_answers req w :
  exists resp w',
    postFindings env req w = (Normal resp, w') /\ Run env req w resp w'.
Proof.
  unfold postFindings, tryCatch. fold (bodyOf req).
  destruct (Text.isEmpty (bearerToken req)) eqn:Htoken.
  { do 2 eexists. split; [reflexivity|]. now constructor. }
  unfold bind at 1.
  destruct (githubUsernameFromToken env (bearerToken req) w)
    as [[username|e] w1] eqn:Hid.
  2:{ do 2 eexists. split; [reflexivity|]. econstructor; eauto. }
  unfold bind at 1. unfold emit at 1. unfold bind at 1.
  destruct (normalizeToWorkspaces env (bodyOf req)
              (note (Normalization (bodyOf req)) w1))
    as [[records|e] w2] eqn:Hnorm.
  2:{ do 2 eexists. split; [reflexivity|]. eapply RunNormalizeFailed; eauto. }
  destruct records as [|r rs];
    [do 2 eexists; split; [reflexivity|]; eapply RunEmptyBatch; eauto|].
  change (Nat.eqb (List.length (r :: rs)) 0) with false. cbv iota.
  destruct (buildDocs_run username (r :: rs) w2) as (docs & w3 & Hdocs & _ & _).
  unfold bind at 1. rewrite Hdocs. unfold bind at 1.
  destruct (insertMany env docs w3) as [[ids|e] w4] eqn:Hins.
  - do 2 eexists. split; [reflexivity|].
    eapply RunStored; eauto. discriminate.
  - do 2 eexists. split; [reflexivity|].
    eapply RunStoreFailed; eauto. discriminate.
Qed.

Lemma postFindings_run req w resp w' :
  postFindings env req w = (Normal resp, w') -> Run env req w resp w'.
Proof.
  intros H. destruct (postFindings_answers req w) as (resp0 & w0 & H0 & HR).
  rewrite H0 in H. inversion H; subst. exact HR.
Qed.

End Pipeline.

(** ** What a run leaves in the world *)

Lemma newEvents_app w w' evs :
  trace w' = trace w ++ evs -> newEvents w w' = evs.
Proof.
  intros H. unfold newEvents. rewrite H, skipn_app, skipn_all, Nat.sub_diag.
  reflexivity.
Qed.

Section Effects.

Variable env : Env.

Lemma identity_effects token w c w1 :
  githubUsernameFromToken env token w = (c, w1) ->
  store w1 = store w /\ trace w1 = trace w ++ [IdentityCall token].
Proof. intros H. apply identity_run in H. subst. now split. Qed.

Lemma normalize_effects body ev w1 c w2 :
  normalizeToWorkspaces env body (note ev w1) = (c, w2) ->
  store w2 = store w1 /\ trace w2 = trace w1 ++ [ev].
Proof.
  intros H. apply normalize_run in H as ((_ & Hs & Ht) & _).
  split; [exact Hs|exact Ht].
Qed.

(** A run that calls the store does so last, after the identity call and
    a normalisation that returned at least one record. *)
Lemma Run_events req w resp w' :
  Run env req w resp w' ->
  (store w' = store w
   /\ (newEvents w w' = []
       \/ newEvents w w' = [IdentityCall (bearerToken req)]
       \/ newEvents w w' = [IdentityCall (bearerToken req);
                            Normalization (bodyOf req)]))
  \/ (exists username w1 records w2 docs,
        githubUsernameFromToken env (bearerToken req) w = (Normal username, w1)
        /\ normalizeToWorkspaces env (bodyOf req)
             (note (Normalization (bodyOf req)) w1) = (Normal records, w2)
        /\ records <> []
        /\ Forall2 (docOf username) records docs
        /\ newEvents w w' = [IdentityCall (bearerToken req);
                             Normalization (bodyOf req);
                             InsertMany docs]).
Proof.
  intros HR.
  inversion HR as
    [ Htok
    | e w1 Htok Hid
    | username w1 e w2 Htok Hid Hnorm
    | username w1 w2 Htok Hid Hnorm
    | username w1 records w2 docs w3 ids w4 Htok Hid Hnorm Hne Hdocs Hins
    | username w1 records w2 docs w3 e w4 Htok Hid Hnorm Hne Hdocs Hins ];
    subst.
  - left. split; [reflexivity|]. left. apply newEvents_app. now rewrite app_nil_r.
  - left. apply identity_effects in Hid as (Hs & Ht).
    split; [exact Hs|]. right; left. now apply newEvents_app.
  - left. apply identity_effects in Hid as (Hs & Ht).
    apply normalize_effects in Hnorm as (Hs2 & Ht2).
    split; [congruence|]. right; right. apply newEvents_app.
    rewrite Ht2, Ht, <- app_assoc. reflexivity.
  - left. apply identity_effects in Hid as (Hs & Ht).
    apply normalize_effects in Hnorm as (Hs2 & Ht2).
    split; [congruence|]. right; right. apply newEvents_app.
    rewrite Ht2, Ht, <- app_assoc. reflexivity.
  - right. exists username, w1, records, w2, docs.
    destruct (buildDocs_run env username records w2)
      as (docs' & w3' & Hdocs' & Hall & (_ & _ & Ht3)).
    rewrite Hdocs in Hdocs'. inversion Hdocs'; subst docs' w3'.
    repeat (split; [assumption|]).
    apply insertMany_trace in Hins.
    pose proof (identity_effects _ _ _ _ Hid) as (_ & Ht).
    pose proof (normalize_effects _ _ _ _ _ Hnorm) as (_ & Ht2).
    apply newEvents_app. rewrite Hins, Ht3, Ht2, Ht, <- !app_assoc. reflexivity.
  - right. exists username, w1, records, w2, docs.
    destruct (buildDocs_run env username records w2)
      as (docs' & w3' & Hdocs' & Hall & (_ & _ & Ht3)).
    rewrite Hdocs in Hdocs'. inversion Hdocs'; subst docs' w3'.
    repeat (split; [assumption|]).
    apply insertMany_trace in Hins.
    pose proof (identity_effects _ _ _ _ Hid) as (_ & Ht).
    pose proof (normalize_effects _ _ _ _ _ Hnorm) as (_ & Ht2).
    apply newEvents_app. rewrite Hins, Ht3, Ht2, Ht, <- !app_assoc. reflexivity.
Qed.

End Effects.

(** ** The scenarios of the specification *)

(** Scenario A: a flat body with two findings, sent by alice, is stored as
    one document and reported with a total of 2. *)
Example scenario_flat_body :
  postFindings Bench.env (Bench.withToken "good" Bench.bodyA) Bench.boot
  = (Normal (mkResponse 200 (Success (Str "alice") 1 (Num.ofNat 2) ["id0"])),
     mkWorld 2 1
       [(mkObjectId "id0",
         mkDoc (Str "alice") "" "w1" "" "T1000" 1001%Z "" (Num.ofNat 2)
           [Obj [("a", Number (Num.ofZ 1))]; Obj [("b", Number (Num.ofZ 2))]])]
       [IdentityCall "good"; Normalization Bench.bodyA;
        InsertMany
          [mkDoc (Str "alice") "" "w1" "" "T1000" 1001%Z "" (Num.ofNat 2)
             [Obj [("a", Number (Num.ofZ 1))]; Obj [("b", Number (Num.ofZ 2))]]]]).
Proof. reflexivity. Qed.

(** Scenario B: a batch of two workspaces is stored as two documents and
    reported with a total of 1. *)
Example scenario_two_workspaces :
  fst (postFindings Bench.env (Bench.withToken "good" Bench.bodyB) Bench.boot)
  = Normal (mkResponse 200
              (Success (Str "alice") 2 (Num.ofNat 1) ["id0"; "id1"]))
  /\ map (fun entry => doc_workspaceName (snd entry))
       (store (snd (postFindings Bench.env (Bench.withToken "good" Bench.bodyB)
                      Bench.boot)))
     = ["w1"; "w2"].
Proof. split; reflexivity. Qed.

(** ** Credentials and identity *)

(** C8: a request whose Authorization header is absent, does not start
    with ["Bearer "], or carries a token made of white space only is answered
    401 with the world unchanged: nothing is added to the trace of calls (no
    identity-service call, no normalisation, no storage call), nothing to the
    store, and the clock is not read. *)
Theorem missing_credential_short_circuits (env : Env) (req : Request) (w : World) :
  authorization req = None
  \/ (exists h, authorization req = Some h /\ Text.startsWith "Bearer " h = false)
  \/ (exists t, authorization req = Some ("Bearer " ++ t)%string
                /\ Text.allWhiteSpace t = true) ->
  postFindings env req w
  = (Normal (mkResponse 401 (Failure "Missing Bearer token")), w).
Proof.
  intros H.
  assert (Htoken : bearerToken req = "").
  { unfold bearerToken.
    destruct H as [H|[(h & H & Hh)|(t & H & Ht)]]; rewrite H.
    - reflexivity.
    - now rewrite Hh.
    - rewrite startsWith_append.
      change 7 with (String.length "Bearer "). rewrite slice_append.
      now apply trim_white. }
  unfold postFindings, tryCatch. now rewrite Htoken.
Qed.

Lemma missing_credential_witness :
  postFindings Bench.env (mkRequest (Some "Bearer   ") Bench.bodyB) Bench.boot
  = (Normal (mkResponse 401 (Failure "Missing Bearer token")), Bench.boot).
Proof.
  apply missing_credential_short_circuits.
  right; right. exists "  ". split; reflexivity.
Defined.

(** The token is empty in exactly these cases: no header, another scheme,
    or white space after the scheme. *)
Lemma bearerToken_empty_iff (req : Request) :
  bearerToken req = "" <->
  authorization req = None
  \/ (exists h, authorization req = Some h /\ Text.startsWith "Bearer " h = false)
  \/ (exists h, authorization req = Some h /\ Text.startsWith "Bearer " h = true
                /\ Text.allWhiteSpace (Text.slice 7 h) = true).
Proof.
  unfold bearerToken. destruct (authorization req) as [h|].
  - destruct (Text.startsWith "Bearer " h) eqn:Hs.
    + rewrite trim_empty_iff. split.
      * intros Hw. right; right. now exists h.
      * intros [H|[(h' & H & Hh)|(h' & H & _ & Hh)]];
          try discriminate; inversion H; subst; congruence.
    + split; [|reflexivity]. intros _. right; left. now exists h.
  - split; [now left|reflexivity].
Qed.

(** C1, as the code has it: when the token is not empty and identity
    resolution fails (the identity service answers with a response that is
    not ok, or with JSON that has no truthy login), the handler answers 500
    (its catch-all, not 401), the store is unchanged and the identity call
    is the only call made. *)
Theorem identity_failure_answers_500 (env : Env) (req : Request) (w : World)
    (r : FetchResponse) :
  Text.isEmpty (bearerToken req) = false ->
  identityService env (bearerToken req) = Normal r ->
  ok r = false
  \/ (exists data, json r = Normal data /\ JS.truthy (JS.get data "login") = false) ->
  exists msg w',
    postFindings env req w = (Normal (mkResponse 500 (Failure msg)), w')
    /\ store w' = store w
    /\ newEvents w w' = [IdentityCall (bearerToken req)].
Proof.
  intros Htoken Hsvc Hfail.
  assert (Hid : exists e,
             githubUsernameFromToken env (bearerToken req) w
             = (Throw e, note (IdentityCall (bearerToken req)) w)).
  { unfold githubUsernameFromToken, bind, emit, lift, throw. rewrite Hsvc.
    destruct (ok r) eqn:Hok; simpl.
    - destruct Hfail as [Hf|(data & Hj & Hl)]; [discriminate|].
      rewrite Hj, Hl. simpl. eauto.
    - eauto. }
  destruct Hid as (e & Hid).
  exists (errorString e), (note (IdentityCall (bearerToken req)) w).
  split; [|split; [reflexivity|now apply newEvents_app]].
  unfold postFindings, tryCatch. rewrite Htoken.
  rewrite (bind_abort _ _ _ _ _ Hid). reflexivity.
Qed.

Lemma identity_failure_witness :
  exists msg w',
    postFindings Bench.env (Bench.withToken "nologin" Bench.bodyA) Bench.boot
    = (Normal (mkResponse 500 (Failure msg)), w')
    /\ store w' = store Bench.boot
    /\ newEvents Bench.boot w' = [IdentityCall "nologin"].
Proof.
  apply (identity_failure_answers_500 Bench.env
           (Bench.withToken "nologin" Bench.bodyA) Bench.boot
           (mkFetchResponse true 200 None
              (Normal (Obj [("id", Number (Num.ofZ 7))])))).
  - reflexivity.
  - reflexivity.
  - right. eexists. split; reflexivity.
Defined.

(** C1 as stated fails: the identity service rejects the token ["bad"] with
    a response that is not ok, and the handler answers 500, not 401. *)
Lemma rejected_token_answers_500 :
  Text.isEmpty (bearerToken (Bench.withToken "bad" Bench.bodyB)) = false
  /\ identityService Bench.env "bad"
     = Normal (mkFetchResponse false 401 (Some "Bad credentials")
                 (Normal (Obj [("message", Str "Bad credentials")])))
  /\ postFindings Bench.env (Bench.withToken "bad" Bench.bodyB) Bench.boot
     = (Normal (mkResponse 500
                  (Failure "GitHub auth failed: HTTP 401 Bad credentials")),
        mkWorld 0 0 [] [IdentityCall "bad"]).
Proof. repeat split. Qed.

(** ** Validation and persistence *)

Lemma totalFindings_sum (username : value) (records : list WorkspaceBatch)
    (docs : list Doc) :
  Forall2 (docOf username) records docs ->
  totalFindingsOf docs = Num.sum (map doc_findingsCount docs).
Proof.
  intros H. unfold totalFindingsOf, Num.sum. generalize Num.zero at 2 3.
  induction H as [|r d rs ds Hd _ IH]; intros acc; simpl; [reflexivity|].
  rewrite IH. repeat f_equal.
  destruct Hd as (_ & _ & _ & _ & _ & _ & Hc & _). rewrite Hc.
  unfold Num.or. destruct (Num.truthy (findingsCount r)) eqn:E.
  - now rewrite E.
  - reflexivity.
Qed.

(** C9: when the request is authenticated and normalisation returns the
    empty sequence, the handler answers 400, the store is unchanged and the
    only calls are the identity call and the normalisation; and in every run,
    a call to the store happens only after the identity was resolved and
    normalisation returned a sequence that is not empty, as the last call of
    the run. *)
Theorem empty_batch_rejected (env : Env) (req : Request) (w : World)
    (resp : Response) (w' : World) :
  postFindings env req w = (Normal resp, w') ->
  (forall username w1 w2,
      Text.isEmpty (bearerToken req) = false ->
      githubUsernameFromToken env (bearerToken req) w = (Normal username, w1) ->
      normalizeToWorkspaces env (bodyOf req)
        (note (Normalization (bodyOf req)) w1) = (Normal [], w2) ->
      resp = mkResponse 400 (Failure "Invalid payload")
      /\ store w' = store w
      /\ newEvents w w' = [IdentityCall (bearerToken req);
                           Normalization (bodyOf req)])
  /\ (forall docs,
        In (InsertMany docs) (newEvents w w') ->
        exists username w1 records w2,
          githubUsernameFromToken env (bearerToken req) w = (Normal username, w1)
          /\ normalizeToWorkspaces env (bodyOf req)
               (note (Normalization (bodyOf req)) w1) = (Normal records, w2)
          /\ records <> []
          /\ newEvents w w' = [IdentityCall (bearerToken req);
                               Normalization (bodyOf req);
                               InsertMany docs]).
Proof.
  intros Hrun. pose proof (postFindings_run _ _ _ _ _ Hrun) as HR. split.
  - intros username w1 w2 Htok Hid Hnorm.
    assert (Hrun' : postFindings env req w
                    = (Normal (mkResponse 400 (Failure "Invalid payload")), w2)).
    { unfold postFindings, tryCatch. fold (bodyOf req). rewrite Htok.
      rewrite (bind_step _ _ _ _ _ Hid).
      unfold bind at 1. unfold emit at 1. unfold bind at 1.
      rewrite Hnorm. reflexivity. }
    rewrite Hrun in Hrun'. inversion Hrun'; subst.
    apply identity_effects in Hid as (Hs & Ht).
    apply normalize_effects in Hnorm as (Hs2 & Ht2).
    split; [reflexivity|]. split; [congruence|].
    apply newEvents_app. rewrite Ht2, Ht, <- app_assoc. reflexivity.
  - intros docs Hin.
    destruct (Run_events _ _ _ _ _ HR)
      as [(_ & [He|[He|He]])
         |(username & w1 & records & w2 & docs' & Hid & Hnorm & Hne & _ & He)];
      rewrite He in Hin; simpl in Hin.
    + contradiction.
    + destruct Hin as [Hin|[]]; discriminate.
    + destruct Hin as [Hin|[Hin|[]]]; discriminate.
    + destruct Hin as [Hin|[Hin|[Hin|[]]]]; try discriminate.
      inversion Hin; subst docs'.
      exists username, w1, records, w2. now repeat split.
Qed.

Lemma empty_batch_witness :
  let run := postFindings Bench.env (Bench.withToken "good" Bench.bodyEmpty)
               Bench.boot in
  fst run = Normal (mkResponse 400 (Failure "Invalid payload"))
  /\ store (snd run) = store Bench.boot
  /\ newEvents Bench.boot (snd run)
     = [IdentityCall "good"; Normalization Bench.bodyEmpty].
Proof.
  intros run.
  destruct (proj1 (empty_batch_rejected Bench.env
                     (Bench.withToken "good" Bench.bodyEmpty)
                     Bench.boot _ _ eq_refl)
              (Str "alice") (mkWorld 0 0 [] [IdentityCall "good"]) _
              eq_refl eq_refl eq_refl)
    as (Hresp & Hstore & Hevents).
  split; [exact (f_equal Normal Hresp)|]. split; [exact Hstore|exact Hevents].
Defined.

(** C7: a request answered 200 resolved a username, normalised the body to
    records, built one document per record in order, and stored the batch;
    the response carries that username, [batchesInserted] the number of
    normalised records, [totalFindings] the sum of the stored documents'
    [findingsCount] (added from the left as JavaScript adds numbers; when
    the counts are natural numbers with a total below 2^53 it is the number
    of their arithmetic sum), and [batchIds] the text of the identifier
    stored with each document, in the order of the records. *)
Theorem success_response_reports (env : Env) (req : Request) (w : World)
    (resp : Response) (w' : World) :
  postFindings env req w = (Normal resp, w') ->
  statusCode resp = 200 ->
  exists username w1 records w2 docs ids,
    githubUsernameFromToken env (bearerToken req) w = (Normal username, w1)
    /\ normalizeToWorkspaces env (bodyOf req)
         (note (Normalization (bodyOf req)) w1) = (Normal records, w2)
    /\ Forall2 (docOf username) records docs
    /\ List.length ids = List.length docs
    /\ store w' = store w ++ combine ids docs
    /\ payload resp
       = Success username (List.length records)
           (Num.sum (map doc_findingsCount docs)) (map hex ids)
    /\ (forall ns,
          map doc_findingsCount docs = map Num.ofNat ns ->
          (Z.of_nat (list_sum ns) < 2 ^ 53)%Z ->
          Num.sum (map doc_findingsCount docs) = Num.ofNat (list_sum ns)).
Proof.
  intros Hrun Hstatus. apply postFindings_run in Hrun.
  inversion Hrun as
      [ Htok
      | e w1 Htok Hid
      | username w1 e w2 Htok Hid Hnorm
      | username w1 w2 Htok Hid Hnorm
      | username w1 records w2 docs w3 ids w4 Htok Hid Hnorm Hne Hdocs Hins
      | username w1 records w2 docs w3 e w4 Htok Hid Hnorm Hne Hdocs Hins ];
    subst; simpl in Hstatus; try discriminate.
  destruct (buildDocs_run env username records w2)
    as (docs' & w3' & Hdocs' & Hall & (_ & Hs3 & _)).
  rewrite Hdocs in Hdocs'. inversion Hdocs'; subst docs' w3'.
  apply insertMany_normal in Hins as (Hlen & Hstore & _).
  pose proof (identity_effects _ _ _ _ _ Hid) as (Hs1 & _).
  pose proof (normalize_effects _ _ _ _ _ _ Hnorm) as (Hs2 & _).
  exists username, w1, records, w2, docs, ids.
  repeat (split; [assumption|]).
  split; [congruence|]. split.
  - simpl. rewrite (totalFindings_sum _ _ _ Hall), (Forall2_length Hall).
    reflexivity.
  - intros ns Hns Hbound. rewrite Hns. now apply sum_ofNat.
Qed.

Lemma success_response_witness :
  exists username w1 records w2 docs ids,
    githubUsernameFromToken Bench.env "good" Bench.boot = (Normal username, w1)
    /\ normalizeToWorkspaces Bench.env Bench.bodyB
         (note (Normalization Bench.bodyB) w1) = (Normal records, w2)
    /\ Forall2 (docOf username) records docs
    /\ List.length ids = List.length docs
    /\ ids = map fst (store (snd (postFindings Bench.env
                                    (Bench.withToken "good" Bench.bodyB) Bench.boot)))
    /\ Success (Str "alice") 2 (Num.ofNat 1) ["id0"; "id1"]
       = Success username (List.length records)
           (Num.sum (map doc_findingsCount docs)) (map hex ids).
Proof.
  destruct (success_response_reports Bench.env
              (Bench.withToken "good" Bench.bodyB) Bench.boot _ _ eq_refl eq_refl)
    as (username & w1 & records & w2 & docs & ids
        & H1 & H2 & H3 & H4 & H5 & H6 & _).
  exists username, w1, records, w2, docs, ids.
  repeat (split; [assumption|]). split; [|exact H6].
  simpl in H5.
  assert (Hfst : map fst (combine ids docs) = ids).
  { clear - H4. revert docs H4.
    induction ids as [|i ids IH]; intros [|d docs] H; simpl in *;
      try discriminate; [reflexivity|]. f_equal. apply IH. now inversion H. }
  rewrite <- Hfst at 1. now rewrite <- H5.
Defined.

(** ** Normalised fields *)

Lemma stringRule_of_conversion (env : Env) (x : value) (field : string) :
  JS.ToString (NumberToString env) (maxNesting env) (JS.or x (Str "")) = Normal field ->
  stringRule env x field.
Proof.
  unfold JS.or. intros H. repeat split.
  - intros s ->. simpl in H. destruct s; simpl in H; congruence.
  - intros Hx. rewrite Hx in H. simpl in H. congruence.
  - intros Hx. now rewrite Hx in H.
Qed.

(** The rule on values of the wrong type: [true] becomes ["true"], a truthy
    number its decimal text, an object ["[object Object]"]. *)
Lemma stringRule_wrong_types (env : Env) (x : value) (field : string) :
  stringRule env x field ->
  (x = Bool true -> field = "true")
  /\ (forall n, x = Number n -> Num.truthy n = true -> field = NumberToString env n)
  /\ (forall props, x = Obj props -> field = "[object Object]").
Proof.
  intros (_ & _ & H). repeat split.
  - intros ->. specialize (H eq_refl). simpl in H. congruence.
  - intros n -> Hn. specialize (H Hn). simpl in H. congruence.
  - intros props ->. specialize (H eq_refl). simpl in H.
    destruct (JS.hasOwn "toString" props); congruence.
Qed.

(** C4, as the code has it: in either shape, each declared string field of
    a normalised record is the caller's value when that is a string, the
    empty string when the field is missing or holds a falsy value, and the
    string conversion of any other value (so not the empty string for a
    truthy value of another type); for [extensionVersion] the caller's value
    is the request-level one when truthy, the record's own otherwise. *)
Theorem string_fields_rule (env : Env) (body : value) (w : World)
    (rs : list WorkspaceBatch) (w' : World) :
  normalizeToWorkspaces env body w = (Normal rs, w') ->
  Forall2
    (fun v r =>
       stringRule env (JS.get v "workspaceId") (workspaceId r)
       /\ stringRule env (JS.get v "workspaceName") (workspaceName r)
       /\ stringRule env
            (JS.or (JS.get body "extensionVersion") (JS.get v "extensionVersion"))
            (extensionVersion r)
       /\ stringRule env (JS.get v "findingsFile") (findingsFile r))
    (inputRecords body) rs.
Proof.
  intros H. apply normalize_records in H.
  eapply Forall2_impl; [|exact H].
  intros v r (k & H1 & H2 & H3 & _ & H5 & _).
  repeat split; try (apply stringRule_of_conversion; assumption);
    apply stringRule_of_conversion in H1, H2, H3, H5;
    first [apply H1|apply H2|apply H3|apply H5].
Qed.

Lemma string_fields_witness :
  Forall2
    (fun v r =>
       stringRule Bench.env (JS.get v "workspaceId") (workspaceId r)
       /\ stringRule Bench.env (JS.get v "workspaceName") (workspaceName r)
       /\ stringRule Bench.env
            (JS.or (JS.get Bench.bodyB "extensionVersion")
               (JS.get v "extensionVersion"))
            (extensionVersion r)
       /\ stringRule Bench.env (JS.get v "findingsFile") (findingsFile r))
    (inputRecords Bench.bodyB)
    [mkBatch "" "w1" "" "T1000" [Obj [("a", Number (Num.ofZ 1))]] (Num.ofZ 1) "";
     mkBatch "" "w2" "" "T1001" [] Num.zero ""].
Proof.
  exact (string_fields_rule Bench.env Bench.bodyB Bench.boot _ _ eq_refl).
Defined.

(** C4 as stated fails: [workspaceId: true] is normalised to ["true"] and
    [findingsFile: {}] to ["[object Object]"], not to the empty string. *)
Lemma wrong_typed_fields_are_converted :
  normalizeToWorkspaces Bench.env Bench.bodyWrongTypes Bench.boot
  = (Normal [mkBatch "true" "" "" "T1000" [] Num.zero "[object Object]"],
     mkWorld 1 0 [] []).
Proof. reflexivity. Qed.

(** Which of the request-level value [b], the element's value [e] and a
    default is converted by [String(b || e || default)]. *)
Lemma or_chain_cases (env : Env) (b e dflt : value) (field : string) :
  JS.ToString (NumberToString env) (maxNesting env) (JS.or (JS.or b e) dflt) = Normal field ->
  (JS.truthy b = true -> JS.ToString (NumberToString env) (maxNesting env) b = Normal field)
  /\ (JS.truthy b = false -> JS.truthy e = true ->
      JS.ToString (NumberToString env) (maxNesting env) e = Normal field)
  /\ (JS.truthy b = false -> JS.truthy e = false ->
      JS.ToString (NumberToString env) (maxNesting env) dflt = Normal field).
Proof.
  unfold JS.or. intros H. repeat split.
  - intros Hb. now rewrite Hb, Hb in H.
  - intros Hb He. now rewrite Hb, He in H.
  - intros Hb He. now rewrite Hb, He in H.
Qed.

(** C2 as stated fails: the element supplies version ["2.0.0"] and its own
    time, and the record carries the request-level ["1.0.0"] and time. *)
Lemma element_values_are_overridden :
  inputRecords Bench.bodyVersions
  = [Obj [("extensionVersion", Str "2.0.0");
          ("generatedAt", Str "2025-06-01T00:00:00.000Z")]]
  /\ normalizeToWorkspaces Bench.env Bench.bodyVersions Bench.boot
     = (Normal [mkBatch "" "" "1.0.0" "2024-01-01T00:00:00.000Z" [] Num.zero ""],
        Bench.boot).
Proof. split; reflexivity. Qed.

(** ** The count of findings *)

Lemma findingsCountOf_cases (v : value) :
  (forall n, JS.get v "findingsCount" = Number n -> findingsCountOf v = n)
  /\ (JS.isNumber (JS.get v "findingsCount") = false ->
      findingsCountOf v = Num.ofNat (List.length (findingsOf v))
      /\ (JS.isArray (JS.get v "findings") = false -> findingsCountOf v = Num.zero)).
Proof.
  unfold findingsCountOf, findingsOf. split.
  - now intros n ->.
  - intros Hn. destruct (JS.get v "findingsCount"); try discriminate;
      destruct (JS.get v "findings"); split; try reflexivity; discriminate.
Qed.

(** What a document keeps of a record's count: the count itself, and 0 for
    [NaN] and the zeros. *)
Lemma buildDoc_count (env : Env) (username : value) (r : WorkspaceBatch)
    (w : World) (d : Doc) (w' : World) :
  buildDoc env username r w = (Normal d, w') ->
  doc_findingsCount d
  = if Num.truthy (findingsCount r) then findingsCount r else Num.zero.
Proof.
  intros H. destruct (buildDoc_run env username r w) as (d' & w1 & Hd & Hdoc & _).
  rewrite H in Hd. inversion Hd; subst.
  now destruct Hdoc as (_ & _ & _ & _ & _ & _ & Hc & _).
Qed.


(** ** How many records *)

(** When normalisation returns, it returns one record per input record. *)
Lemma normalize_count (env : Env) (body : value) (w : World)
    (rs : list WorkspaceBatch) (w' : World) :
  normalizeToWorkspaces env body w = (Normal rs, w') ->
  List.length rs = List.length (inputRecords body).
Proof.
  intros H. apply normalize_records in H. symmetry. exact (Forall2_length H).
Qed.

(** The normalised sequence is empty exactly for [workspaces: []]. *)
Lemma normalize_empty_iff (env : Env) (body : value) (w : World) :
  (exists w', normalizeToWorkspaces env body w = (Normal [], w'))
  <-> JS.get body "workspaces" = Arr [].
Proof.
  split.
  - intros (w' & H). apply normalize_count in H. simpl in H.
    unfold inputRecords in H.
    destruct (JS.get body "workspaces") as [| | | | |[|x l]|]; try discriminate.
    reflexivity.
  - intros H. exists w. now rewrite (normalize_multi env body [] H).
Qed.

(** The handler answers 400 only to a body with [workspaces: []]. *)
Lemma invalid_payload_only_for_empty_workspaces (env : Env) (req : Request)
    (w : World) (resp : Response) (w' : World) :
  postFindings env req w = (Normal resp, w') ->
  statusCode resp = 400 ->
  JS.get (bodyOf req) "workspaces" = Arr [].
Proof.
  intros Hrun Hstatus. apply postFindings_run in Hrun.
  inversion Hrun; subst; simpl in Hstatus; try discriminate.
  eapply normalize_empty_iff. eauto.
Qed.

(** An induction principle that reaches the values nested in arrays and
    objects. *)
Lemma value_nested_ind (P : value -> Prop) :
  P Undefined -> P Null -> (forall b, P (Bool b)) -> (forall n, P (Number n)) ->
  (forall s, P (Str s)) ->
  (forall l, Forall P l -> P (Arr l)) ->
  (forall props, Forall (fun kv => P (snd kv)) props -> P (Obj props)) ->
  forall v, P v.
Proof.
  intros HU HN HB HNum HS HA HO.
  refine (fix IH (v : value) : P v :=
            match v with
            | Undefined => HU
            | Null => HN
            | Bool b => HB b
            | Number n => HNum n
            | Str s => HS s
            | Arr l =>
                HA l ((fix go (l : list value) : Forall P l :=
                         match l with
                         | [] => Forall_nil _
                         | x :: t => Forall_cons x (IH x) (go t)
                         end) l)
            | Obj props =>
                HO props
                  ((fix go (ps : list (string * value))
                      : Forall (fun kv => P (snd kv)) ps :=
                      match ps with
                      | [] => Forall_nil _
                      | kv :: t => Forall_cons kv (IH (snd kv)) (go t)
                      end) props)
            end).
Qed.

Lemma list_max_bound (ns : list nat) (n k : nat) :
  In n ns -> list_max ns <= k -> n <= k.
Proof.
  intros Hin Hmax. apply list_max_le in Hmax.
  rewrite Forall_forall in Hmax. auto.
Qed.

(** The conversion to a string returns on every plain value that nests no
    deeper than the depth allowed. *)
Lemma converts_within (env : Env) (v : value) :
  forall depth,
    plain v = true -> nesting v <= depth ->
    exists s, JS.ToString (NumberToString env) depth v = Normal s.
Proof.
  induction v as [| |b|n|s|l IH|props _] using value_nested_ind;
    intros depth Hp Hn.
  - now eexists.
  - now eexists.
  - destruct b; now eexists.
  - now eexists.
  - now eexists.
  - simpl in Hp, Hn. destruct depth as [|deeper]; [lia|].
    apply le_S_n in Hn. simpl JS.ToString.
    induction l as [|x l IHl]; [now eexists|].
    simpl in Hp, Hn. apply andb_true_iff in Hp as (Hx & Hl).
    inversion IH as [|? ? Px Pl]; subst.
    assert (Hnx : nesting x <= deeper) by lia.
    assert (Hnl : list_max (map nesting l) <= deeper) by lia.
    destruct (Px deeper Hx Hnx) as (sx & Hsx).
    assert (Helem : exists s,
               match x with
               | Undefined | Null => Normal ""
               | _ => JS.ToString (NumberToString env) deeper x
               end = Normal s).
    { destruct x; eauto. }
    destruct Helem as (s & Hs).
    destruct l as [|y l]; [exact (ex_intro _ s Hs)|].
    destruct (IHl Pl Hl Hnl) as (r & Hr).
    rewrite Hs, Hr. now eexists.
  - simpl in Hp. apply andb_true_iff in Hp as (Hown & _).
    simpl. destruct (JS.hasOwn "toString" props); [discriminate|now eexists].
Qed.

Lemma shallow_nesting (limit : nat) (v : value) :
  shallow limit v = true -> nesting v <= limit.
Proof.
  destruct v; try (simpl; lia).
  cbn [shallow nesting]. intros H.
  apply andb_true_iff in H as (H & _). now apply Nat.leb_le in H.
Qed.

Lemma shallow_get (limit : nat) (v : value) (k : string) :
  shallow limit v = true -> shallow limit (JS.get v k) = true.
Proof.
  destruct v; try reflexivity. simpl. intros H.
  induction properties as [|[k' x] ps IH]; simpl in *; [reflexivity|].
  apply andb_true_iff in H as (Hx & Hps).
  destruct (String.eqb k k'); [exact Hx|auto].
Qed.

Lemma plain_get (v : value) (k : string) :
  plain v = true -> plain (JS.get v k) = true.
Proof.
  destruct v; try reflexivity. simpl.
  intros H. apply andb_true_iff in H as (_ & H).
  induction properties as [|[k' x] ps IH]; simpl in *; [reflexivity|].
  apply andb_true_iff in H as (Hx & Hps).
  destruct (String.eqb k k'); [exact Hx|auto].
Qed.

Lemma plain_or (a b : value) :
  plain a = true -> plain b = true -> plain (JS.or a b) = true.
Proof. unfold JS.or. now destruct (JS.truthy a). Qed.

Lemma tame_get (env : Env) (v : value) (k : string) :
  tame env v = true -> tame env (JS.get v k) = true.
Proof.
  unfold tame. intros H. apply andb_true_iff in H as (Hp & Hs).
  now rewrite plain_get, shallow_get.
Qed.

Lemma tame_or (env : Env) (a b : value) :
  tame env a = true -> tame env b = true -> tame env (JS.or a b) = true.
Proof. unfold JS.or. now destruct (JS.truthy a). Qed.

Lemma tame_elements (env : Env) (l : list value) :
  tame env (Arr l) = true -> forallb (tame env) l = true.
Proof.
  unfold tame. cbn [plain shallow]. intros H.
  apply andb_true_iff in H as (Hp & Hs).
  apply andb_true_iff in Hs as (_ & Hs).
  rewrite forallb_forall in *. intros x Hx.
  now rewrite (Hp x Hx), (Hs x Hx).
Qed.

(** [String] returns on every tame value. *)
Lemma tame_converts (env : Env) (v : value) :
  tame env v = true ->
  exists s, JS.ToString (NumberToString env) (maxNesting env) v = Normal s.
Proof.
  unfold tame. intros H. apply andb_true_iff in H as (Hp & Hs).
  apply converts_within; [exact Hp|now apply shallow_nesting].
Qed.

Section Totality.

Variable env : Env.

Ltac converts E :=
  match goal with
  | |- context [JS.ToString (NumberToString env) (maxNesting env) ?x] =>
      let s := fresh "s" in
      destruct (tame_converts env x) as (s & E);
      [repeat first [apply tame_or | apply tame_get | reflexivity | assumption]
      |rewrite E]
  end.

Lemma multiRecord_returns body v w :
  tame env body = true -> tame env v = true ->
  exists r w', multiRecord env body v w = (Normal r, w').
Proof.
  intros Hb Hv. unfold multiRecord.
  destruct (orElse_nowISO_run env
              (JS.or (JS.get body "generatedAt") (JS.get v "generatedAt")) w)
    as (w1 & Hstamp & _).
  unfold bind, toStr, lift. rewrite Hstamp.
  converts E1. converts E2. converts E3. converts E4. converts E5.
  now do 2 eexists.
Qed.

Lemma flatRecord_returns body w :
  tame env body = true ->
  exists r w', flatRecord env body w = (Normal r, w').
Proof.
  intros Hb. unfold flatRecord.
  destruct (orElse_nowISO_run env (JS.get body "generatedAt") w)
    as (w1 & Hstamp & _).
  unfold bind, toStr, lift. rewrite Hstamp.
  converts E1. converts E2. converts E3. converts E4. converts E5.
  now do 2 eexists.
Qed.

Lemma mapM_multiRecord_returns body workspaces :
  tame env body = true -> forallb (tame env) workspaces = true ->
  forall w, exists rs w',
    mapM (multiRecord env body) workspaces w = (Normal rs, w').
Proof.
  intros Hb. induction workspaces as [|v vs IH]; intros Hvs w; simpl.
  - now do 2 eexists.
  - simpl in Hvs. apply andb_true_iff in Hvs as (Hv & Hvs).
    destruct (multiRecord_returns body v w Hb Hv) as (r & w1 & Hr).
    destruct (IH Hvs w1) as (rs & w2 & Hrs).
    unfold bind. rewrite Hr, Hrs. now do 2 eexists.
Qed.

(** On a tame body normalisation returns: one record per element of
    [workspaces] when that is an array, one record otherwise. *)
Lemma normalize_returns body w :
  tame env body = true ->
  exists rs w',
    normalizeToWorkspaces env body w = (Normal rs, w')
    /\ List.length rs = List.length (inputRecords body).
Proof.
  intros Hb.
  assert (H : exists rs w', normalizeToWorkspaces env body w = (Normal rs, w')).
  { destruct (JS.get body "workspaces") as [| | | | |ws|] eqn:Hws;
      try (rewrite normalize_flat by (rewrite Hws; reflexivity);
           destruct (flatRecord_returns body w Hb) as (r & w1 & Hr);
           unfold bind; rewrite Hr; now do 2 eexists).
    rewrite (normalize_multi env body ws Hws).
    apply mapM_multiRecord_returns; [exact Hb|].
    apply tame_elements. rewrite <- Hws. now apply tame_get. }
  destruct H as (rs & w' & H). exists rs, w'. split; [exact H|].
  eapply normalize_count; eauto.
Qed.

End Totality.

(** C6, where the code departs from it: a body whose [workspaceId] is an
    object with an own [toString] property is a flat body with one input
    record, and a batch holding such an element has one element, yet
    normalisation produces no record for either: the conversion of that
    field throws a [TypeError]. *)
Theorem shadowed_toString_aborts_normalization :
  JS.isArray (JS.get Bench.bodyShadowed "workspaces") = false
  /\ normalizeToWorkspaces Bench.env Bench.bodyShadowed Bench.boot
     = (Throw cannotConvert, Bench.boot)
  /\ List.length (inputRecords Bench.bodyShadowedBatch) = 1
  /\ normalizeToWorkspaces Bench.env Bench.bodyShadowedBatch Bench.boot
     = (Throw cannotConvert, Bench.boot).
Proof. repeat split. Qed.

(** C10, where the code departs from it: the body [{workspaceId:
    {toString: 1}}] has no [workspaces] field, and the flat legacy path
    yields no record for it: normalisation throws and the authenticated
    request is answered 500, with nothing stored. *)
Theorem shadowed_toString_answers_500 :
  JS.get Bench.bodyShadowed "workspaces" = Undefined
  /\ postFindings Bench.env (Bench.withToken "good" Bench.bodyShadowed) Bench.boot
     = (Normal (mkResponse 500
                  (Failure "Cannot convert object to primitive value")),
        mkWorld 0 0 []
          [IdentityCall "good"; Normalization Bench.bodyShadowed]).
Proof. split; reflexivity. Qed.

(** ** Further properties of the pipeline *)

(** X1: the handler answers every request in every state: no exception
    escapes it, and the status of its answer is 200, 400, 401 or 500. *)
Theorem handler_always_answers (env : Env) (req : Request) (w : World) :
  exists resp w',
    postFindings env req w = (Normal resp, w')
    /\ In (statusCode resp) [200; 400; 401; 500].
Proof.
  destruct (postFindings_answers env req w) as (resp & w' & Hrun & HR).
  exists resp, w'. split; [exact Hrun|].
  inversion HR; subst; simpl; auto.
Qed.

(** X2: normalisation returns on every tame body, that is a body in which
    no object, at any depth, has an own property named [toString] and no
    array holds more arrays inside one another than the runtime converts;
    it then gives one record per element of [workspaces] when that is an
    array and exactly one record otherwise. *)
Theorem normalization_total_on_tame_bodies (env : Env) (body : value) (w : World) :
  tame env body = true ->
  exists rs w',
    normalizeToWorkspaces env body w = (Normal rs, w')
    /\ (forall workspaces,
          JS.get body "workspaces" = Arr workspaces ->
          List.length rs = List.length workspaces)
    /\ (JS.isArray (JS.get body "workspaces") = false -> List.length rs = 1).
Proof.
  intros Hp. destruct (normalize_returns env body w Hp) as (rs & w' & H & Hlen).
  exists rs, w'. split; [exact H|]. unfold inputRecords in Hlen. split.
  - intros workspaces Hws. now rewrite Hws in Hlen.
  - intros Hflat. destruct (JS.get body "workspaces"); try exact Hlen.
    discriminate.
Qed.

Lemma normalization_total_witness :
  exists rs w',
    normalizeToWorkspaces Bench.env Bench.bodyB Bench.boot = (Normal rs, w')
    /\ (forall workspaces,
          JS.get Bench.bodyB "workspaces" = Arr workspaces ->
          List.length rs = List.length workspaces)
    /\ (JS.isArray (JS.get Bench.bodyB "workspaces") = false -> List.length rs = 1).
Proof.
  apply (normalization_total_on_tame_bodies Bench.env Bench.bodyB Bench.boot).
  reflexivity.
Defined.

(** X3: normalisation returns the empty sequence exactly for a body whose
    [workspaces] is the empty array, and the handler answers 400 to no other
    body. *)
Theorem empty_batch_characterised (env : Env) (req : Request) (w : World) :
  ((exists w', normalizeToWorkspaces env (bodyOf req) w = (Normal [], w'))
   <-> JS.get (bodyOf req) "workspaces" = Arr [])
  /\ (forall resp w',
        postFindings env req w = (Normal resp, w') /\ statusCode resp = 400 ->
        JS.get (bodyOf req) "workspaces" = Arr []).
Proof.
  split.
  - apply normalize_empty_iff.
  - intros resp w' (Hrun & Hstatus).
    eapply invalid_payload_only_for_empty_workspaces; eauto.
Qed.

(** ** Credentials, identity and the store *)

(** What the identity resolver returns, in terms of the answer of the
    identity service. *)
Lemma identity_outcome (env : Env) (token : string) (w : World) :
  exists c,
    githubUsernameFromToken env token w = (c, note (IdentityCall token) w)
    /\ (forall u,
          c = Normal u <->
          exists r data,
            identityService env token = Normal r
            /\ ok r = true
            /\ json r = Normal data
            /\ JS.truthy (JS.get data "login") = true
            /\ u = JS.get data "login").
Proof.
  unfold githubUsernameFromToken, bind, emit, lift, throw, ret.
  destruct (identityService env token) as [r|e] eqn:Hsvc.
  - destruct (ok r) eqn:Hok; simpl.
    + destruct (json r) as [data|e] eqn:Hjson.
      * destruct (JS.truthy (JS.get data "login")) eqn:Hlogin; simpl.
        -- eexists. split; [reflexivity|]. intros u. split.
           ++ intros Hu. inversion Hu; subst. exists r, data. now repeat split.
           ++ intros (r' & data' & Hr & _ & Hj & _ & Hu).
              inversion Hr; subst r'. rewrite Hjson in Hj.
              inversion Hj; subst. reflexivity.
        -- eexists. split; [reflexivity|]. intros u. split; [discriminate|].
           intros (r' & data' & Hr & _ & Hj & Ht & _).
           inversion Hr; subst r'. rewrite Hjson in Hj.
           inversion Hj; subst. congruence.
      * eexists. split; [reflexivity|]. intros u. split; [discriminate|].
        intros (r' & data' & Hr & _ & Hj & _).
        inversion Hr; subst r'. congruence.
    + eexists. split; [reflexivity|]. intros u. split; [discriminate|].
      intros (r' & data' & Hr & Hok' & _).
      inversion Hr; subst r'. congruence.
  - eexists. split; [reflexivity|]. intros u. split; [discriminate|].
    intros (r' & data' & Hr & _). discriminate.
Qed.

(** A resolved username is truthy. *)
Lemma identity_truthy (env : Env) (token : string) (w : World) (u : value)
    (w1 : World) :
  githubUsernameFromToken env token w = (Normal u, w1) -> JS.truthy u = true.
Proof.
  intros H. destruct (identity_outcome env token w) as (c & Hc & Hiff).
  rewrite H in Hc. inversion Hc; subst c.
  destruct (proj1 (Hiff u) eq_refl) as (r & data & _ & _ & _ & Ht & ->).
  exact Ht.
Qed.

(** X5: [githubUsernameFromToken] makes exactly one call to the identity
    service and changes nothing else, whatever the outcome; it returns a
    username exactly when the service answered with an ok response whose
    JSON has a truthy [login], and the username is then that [login] (so it
    is never empty). *)
Theorem identity_resolver_contract (env : Env) (token : string) (w : World) :
  exists c,
    githubUsernameFromToken env token w = (c, note (IdentityCall token) w)
    /\ (forall u,
          c = Normal u <->
          exists r data,
            identityService env token = Normal r
            /\ ok r = true
            /\ json r = Normal data
            /\ JS.truthy (JS.get data "login") = true
            /\ u = JS.get data "login")
    /\ (forall u, c = Normal u -> JS.truthy u = true).
Proof.
  destruct (identity_outcome env token w) as (c & Hc & Hiff).
  exists c. split; [exact Hc|]. split; [exact Hiff|].
  intros u ->. eapply identity_truthy; eauto.
Qed.

(** X4: the handler answers 401 exactly when the request carries no bearer
    token: every failure after that point, a failed identity check included,
    is answered with another status. *)
Theorem unauthorized_iff_no_token (env : Env) (req : Request) (w : World) :
  exists resp w',
    postFindings env req w = (Normal resp, w')
    /\ (statusCode resp = 401 <-> bearerToken req = "").
Proof.
  destruct (postFindings_answers env req w) as (resp & w' & Hrun & HR).
  exists resp, w'. split; [exact Hrun|].
  inversion HR as
      [ Htok
      | e w1 Htok Hid
      | username w1 e w2 Htok Hid Hnorm
      | username w1 w2 Htok Hid Hnorm
      | username w1 records w2 docs w3 ids w4 Htok Hid Hnorm Hne Hdocs Hins
      | username w1 records w2 docs w3 e w4 Htok Hid Hnorm Hne Hdocs Hins ];
    subst; simpl;
    (split; [intros Hs|intros Ht]);
    try reflexivity; try discriminate;
    try (destruct (bearerToken req); simpl in Htok; congruence).
Qed.

Lemma newEntries_app (w w' : World) (added : list (ObjectId * Doc)) :
  store w' = store w ++ added -> newEntries w w' = added.
Proof.
  intros H. unfold newEntries. rewrite H, skipn_app, skipn_all, Nat.sub_diag.
  reflexivity.
Qed.

Lemma combine_snd_username (u : value) (ids : list ObjectId) (docs : list Doc) :
  Forall (fun d => doc_username d = u) docs ->
  Forall (fun entry => doc_username (snd entry) = u) (combine ids docs).
Proof.
  intros H. revert ids. induction H as [|d ds Hd _ IH]; intros [|i ids]; simpl;
    constructor; auto.
Qed.

Lemma docs_username (u : value) (records : list WorkspaceBatch) (docs : list Doc) :
  Forall2 (docOf u) records docs -> Forall (fun d => doc_username d = u) docs.
Proof.
  induction 1 as [|r d rs ds Hd _ IH]; constructor; [apply Hd|exact IH].
Qed.

Lemma Forall_firstn {A} (P : A -> Prop) (k : nat) (l : list A) :
  Forall P l -> Forall P (firstn k l).
Proof.
  intros H. revert k. induction H as [|x l Hx _ IH]; intros [|k]; simpl;
    constructor; auto.
Qed.

(** What [insertMany] leaves in the store: a prefix of the batch, each
    document next to a fresh identifier. *)
Lemma insertMany_store (env : Env) (docs : list Doc) (w : World)
    (c : Completion (list ObjectId)) (w' : World) :
  insertMany env docs w = (c, w') ->
  exists k,
    store w'
    = store w
      ++ firstn k (combine (map (newObjectId env)
                              (seq (minted w) (List.length docs))) docs).
Proof.
  unfold insertMany.
  destruct (storageFault env (store w) docs) as [[k e]|]; intros H;
    inversion H; subst; simpl.
  - now exists k.
  - exists (List.length docs). rewrite firstn_all2; [reflexivity|].
    rewrite length_combine, length_map, length_seq. lia.
Qed.

(** X6: the store is append-only, and what a request appends is its own:
    after every run the store is the store before followed by the entries
    the run added; a run answered 400 or 401 adds none; and every document
    added carries the username resolved for this request, which is truthy
    (never client-supplied, never empty). *)
Theorem store_is_append_only (env : Env) (req : Request) (w : World) :
  exists resp w' added,
    postFindings env req w = (Normal resp, w')
    /\ store w' = store w ++ added
    /\ (statusCode resp = 400 \/ statusCode resp = 401 -> added = [])
    /\ (added <> [] ->
        exists u w1,
          githubUsernameFromToken env (bearerToken req) w = (Normal u, w1)
          /\ JS.truthy u = true
          /\ Forall (fun entry => doc_username (snd entry) = u) added).
Proof.
  destruct (postFindings_answers env req w) as (resp & w' & Hrun & HR).
  exists resp, w'.
  inversion HR as
      [ Htok
      | e w1 Htok Hid
      | username w1 e w2 Htok Hid Hnorm
      | username w1 w2 Htok Hid Hnorm
      | username w1 records w2 docs w3 ids w4 Htok Hid Hnorm Hne Hdocs Hins
      | username w1 records w2 docs w3 e w4 Htok Hid Hnorm Hne Hdocs Hins ];
    subst.
  - exists []. rewrite app_nil_r. repeat split; auto. now intros [].
  - exists []. rewrite app_nil_r. apply identity_effects in Hid as (Hs & _).
    repeat split; auto. now intros [].
  - exists []. rewrite app_nil_r.
    apply identity_effects in Hid as (Hs & _).
    apply normalize_effects in Hnorm as (Hs2 & _).
    repeat split; auto; [congruence|now intros []].
  - exists []. rewrite app_nil_r.
    apply identity_effects in Hid as (Hs & _).
    apply normalize_effects in Hnorm as (Hs2 & _).
    repeat split; auto; [congruence|now intros []].
  - destruct (buildDocs_run env username records w2)
      as (docs' & w3' & Hdocs' & Hall & (_ & Hs3 & _)).
    rewrite Hdocs in Hdocs'. inversion Hdocs'; subst docs' w3'.
    destruct (insertMany_store _ _ _ _ _ Hins) as (k & Hstore).
    pose proof (identity_effects _ _ _ _ _ Hid) as (Hs1 & _).
    pose proof (normalize_effects _ _ _ _ _ _ Hnorm) as (Hs2 & _).
    eexists. split; [exact Hrun|]. split.
    + rewrite Hstore, Hs3, Hs2, Hs1. reflexivity.
    + split; [simpl; intros [H|H]; discriminate|].
      intros _. exists username, w1. split; [exact Hid|].
      split; [eapply identity_truthy; eauto|].
      apply Forall_firstn, combine_snd_username, (docs_username _ _ _ Hall).
  - destruct (buildDocs_run env username records w2)
      as (docs' & w3' & Hdocs' & Hall & (_ & Hs3 & _)).
    rewrite Hdocs in Hdocs'. inversion Hdocs'; subst docs' w3'.
    destruct (insertMany_store _ _ _ _ _ Hins) as (k & Hstore).
    pose proof (identity_effects _ _ _ _ _ Hid) as (Hs1 & _).
    pose proof (normalize_effects _ _ _ _ _ _ Hnorm) as (Hs2 & _).
    eexists. split; [exact Hrun|]. split.
    + rewrite Hstore, Hs3, Hs2, Hs1. reflexivity.
    + split; [simpl; intros [H|H]; discriminate|].
      intros _. exists username, w1. split; [exact Hid|].
      split; [eapply identity_truthy; eauto|].
      apply Forall_firstn, combine_snd_username, (docs_username _ _ _ Hall).
Qed.

(** ** The token sent to the identity service *)

Lemma headWhite_trimStart (s : string) : headWhite (Text.trimStart s) = false.
Proof.
  induction s as [|c s IH]; simpl; [reflexivity|].
  destruct (Text.isWhiteSpace c) eqn:Hc; [exact IH|]. simpl. exact Hc.
Qed.

Lemma headWhite_trimEnd (s : string) :
  headWhite s = false -> headWhite (Text.trimEnd s) = false.
Proof.
  destruct s as [|c s]; simpl; [reflexivity|]. intros Hc.
  destruct (Text.trimEnd s); [rewrite Hc|]; simpl; exact Hc.
Qed.

Lemma lastWhite_trimEnd (s : string) : lastWhite (Text.trimEnd s) = false.
Proof.
  induction s as [|c s IH]; simpl; [reflexivity|].
  destruct (Text.trimEnd s) as [|c' kept] eqn:E.
  - destruct (Text.isWhiteSpace c) eqn:Hc; simpl; [reflexivity|exact Hc].
  - simpl in *. exact IH.
Qed.

(** [trim] leaves no white space at either end. *)
Lemma trim_is_trimmed (s : string) :
  headWhite (Text.trim s) = false /\ lastWhite (Text.trim s) = false.
Proof.
  unfold Text.trim. split.
  - apply headWhite_trimEnd, headWhite_trimStart.
  - apply lastWhite_trimEnd.
Qed.

Lemma no_token_run (env : Env) (req : Request) (w : World) :
  Text.isEmpty (bearerToken req) = true ->
  postFindings env req w
  = (Normal (mkResponse 401 (Failure "Missing Bearer token")), w).
Proof. intros H. unfold postFindings, tryCatch. now rewrite H. Qed.

Lemma newEvents_same (w : World) : newEvents w w = [].
Proof. unfold newEvents. apply skipn_all. Qed.

(** X7: the identity service is only ever called with the token of the
    request: the text that follows ["Bearer "] in the Authorization header,
    trimmed; it is not empty and has no white space at either end. *)
Theorem identity_called_with_trimmed_token (env : Env) (req : Request) (w : World)
    (resp : Response) (w' : World) (t : string) :
  postFindings env req w = (Normal resp, w') ->
  In (IdentityCall t) (newEvents w w') ->
  t <> ""
  /\ headWhite t = false
  /\ lastWhite t = false
  /\ exists h,
       authorization req = Some h
       /\ Text.startsWith "Bearer " h = true
       /\ t = Text.trim (Text.slice 7 h).
Proof.
  intros Hrun Hin.
  destruct (Text.isEmpty (bearerToken req)) eqn:Htok.
  { rewrite (no_token_run env req w Htok) in Hrun. inversion Hrun; subst.
    rewrite newEvents_same in Hin. contradiction. }
  assert (Ht : t = bearerToken req).
  { apply postFindings_run in Hrun.
    destruct (Run_events _ _ _ _ _ Hrun)
      as [(_ & [He|[He|He]])|(u & w1 & rs & w2 & docs & _ & _ & _ & _ & He)];
      rewrite He in Hin; simpl in Hin;
      repeat (destruct Hin as [Hin|Hin]; [try discriminate; now inversion Hin|]);
      contradiction. }
  subst t. split; [intros E; rewrite E in Htok; discriminate|].
  unfold bearerToken in *.
  destruct (authorization req) as [h|]; [|discriminate].
  destruct (Text.startsWith "Bearer " h) eqn:Hs; [|discriminate].
  destruct (trim_is_trimmed (Text.slice 7 h)) as (Hh & Hl).
  split; [exact Hh|]. split; [exact Hl|]. now exists h.
Qed.

Lemma identity_called_witness :
  "good" <> ""
  /\ headWhite "good" = false
  /\ lastWhite "good" = false
  /\ exists h,
       authorization (mkRequest (Some "Bearer   good  ") Bench.bodyA) = Some h
       /\ Text.startsWith "Bearer " h = true
       /\ "good" = Text.trim (Text.slice 7 h).
Proof.
  apply (identity_called_with_trimmed_token Bench.env
           (mkRequest (Some "Bearer   good  ") Bench.bodyA) Bench.boot _ _ "good"
           eq_refl).
  left. reflexivity.
Defined.

(** ** What normalisation does to the world *)

Section ClockReads.

Variable env : Env.

Ltac conversions H :=
  repeat match type of H with
         | context [match JS.ToString ?f ?n ?x with _ => _ end] =>
             destruct (JS.ToString f n x)
         end.

Lemma multiRecord_ticks body v w c w' :
  multiRecord env body v w = (c, w') ->
  ticks w <= ticks w'
  /\ (forall r, c = Normal r -> ticks w' = ticks w + reads body v).
Proof.
  unfold multiRecord, orElse, nowISO, newDate, bind, toStr, lift, ret, reads.
  fold (suppliedTime body v).
  intros H.
  destruct (JS.ToString _ _ (JS.or (JS.get v "workspaceId") _));
    [|inversion H; subst; split; [lia|discriminate]].
  destruct (JS.ToString _ _ (JS.or (JS.get v "workspaceName") _));
    [|inversion H; subst; split; [lia|discriminate]].
  destruct (JS.ToString _ _ (JS.or (JS.or (JS.get body "extensionVersion") _) _));
    [|inversion H; subst; split; [lia|discriminate]].
  destruct (JS.truthy (suppliedTime body v)); simpl in H; conversions H;
    inversion H; subst; simpl; split; try lia; try discriminate;
    intros; lia.
Qed.

Lemma flatRecord_ticks body w c w' :
  flatRecord env body w = (c, w') ->
  ticks w <= ticks w'
  /\ (forall r, c = Normal r -> ticks w' = ticks w + reads body body).
Proof.
  unfold flatRecord, orElse, nowISO, newDate, bind, toStr, lift, ret, reads,
    suppliedTime.
  rewrite or_idem. intros H.
  destruct (JS.ToString _ _ (JS.or (JS.get body "workspaceId") _));
    [|inversion H; subst; split; [lia|discriminate]].
  destruct (JS.ToString _ _ (JS.or (JS.get body "workspaceName") _));
    [|inversion H; subst; split; [lia|discriminate]].
  destruct (JS.ToString _ _ (JS.or (JS.get body "extensionVersion") _));
    [|inversion H; subst; split; [lia|discriminate]].
  destruct (JS.truthy (JS.get body "generatedAt")); simpl in H; conversions H;
    inversion H; subst; simpl; split; try lia; try discriminate;
    intros; lia.
Qed.

Lemma filter_reads body (vs : list value) :
  List.length (filter (fun v => negb (JS.truthy (suppliedTime body v))) vs)
  = list_sum (map (reads body) vs).
Proof.
  induction vs as [|v vs IH]; simpl; [reflexivity|].
  unfold reads at 1. destruct (JS.truthy (suppliedTime body v)); simpl; lia.
Qed.

Lemma mapM_multiRecord_ticks body workspaces :
  forall w c w',
    mapM (multiRecord env body) workspaces w = (c, w') ->
    ticks w <= ticks w'
    /\ (forall rs, c = Normal rs ->
        ticks w' = ticks w + list_sum (map (reads body) workspaces)).
Proof.
  induction workspaces as [|v vs IH]; simpl; intros w c w' H.
  - inversion H; subst. split; [lia|intros; lia].
  - unfold bind in H.
    destruct (multiRecord env body v w) as [[r|e] w1] eqn:Hv;
      destruct (multiRecord_ticks _ _ _ _ _ Hv) as (Hle & Heq).
    + destruct (mapM (multiRecord env body) vs w1) as [[rs'|e] w2] eqn:Hvs;
        destruct (IH _ _ _ Hvs) as (Hle2 & Heq2); inversion H; subst.
      * split; [lia|]. intros rs _.
        rewrite (Heq2 _ eq_refl), (Heq _ eq_refl). lia.
      * split; [lia|discriminate].
    + inversion H; subst. split; [lia|discriminate].
Qed.

Lemma normalize_ticks body w c w' :
  normalizeToWorkspaces env body w = (c, w') ->
  ticks w <= ticks w'
  /\ (forall rs, c = Normal rs -> ticks w' = ticks w + untimed body).
Proof.
  intros H. unfold untimed. rewrite filter_reads. unfold inputRecords.
  destruct (JS.get body "workspaces") eqn:Hws;
    try (rewrite normalize_flat in H by (rewrite Hws; reflexivity);
         unfold bind in H;
         destruct (flatRecord env body w) as [[r|e] w1] eqn:Hr;
         destruct (flatRecord_ticks _ _ _ _ Hr) as (Hle & Heq);
         inversion H; subst; (split; [exact Hle|]);
         [intros rs _; rewrite (Heq _ eq_refl); simpl; lia|discriminate]).
  rewrite (normalize_multi _ _ _ Hws) in H.
  eapply mapM_multiRecord_ticks; eauto.
Qed.

End ClockReads.

(** X8: normalisation performs no I/O: whatever its outcome it leaves the
    store, the identifiers and the trace of calls as they were and only
    advances the clock; when it returns, it has read the clock once for
    each input record that supplies no truthy [generatedAt], neither its own
    nor the request's, and not at all when every record is timed. *)
Theorem normalization_only_reads_clock (env : Env) (body : value) (w : World) :
  let run := normalizeToWorkspaces env body w in
  minted (snd run) = minted w
  /\ store (snd run) = store w
  /\ trace (snd run) = trace w
  /\ ticks w <= ticks (snd run)
  /\ (forall rs, fst run = Normal rs -> ticks (snd run) = ticks w + untimed body).
Proof.
  intros run. subst run.
  destruct (normalizeToWorkspaces env body w) as [c w'] eqn:H. simpl.
  destruct (normalize_run env body w c w' H) as ((Hm & Hs & Ht) & _).
  destruct (normalize_ticks env body w c w' H) as (Hle & Heq).
  repeat split; assumption.
Qed.

(** ** Bodies without fields *)

(** X9: a body with none of the fields (an empty object, or any value that
    is not an object, such as a top-level array) is normalised to exactly
    one record: empty strings, no findings, a count of 0, and the current
    time as [generatedAt], for which the clock is read once. *)
Theorem fieldless_body_gives_blank_record (env : Env) (body : value) (w : World) :
  fieldless body ->
  normalizeToWorkspaces env body w
  = (Normal [blankRecord env (clock env (ticks w))],
     mkWorld (S (ticks w)) (minted w) (store w) (trace w)).
Proof.
  intros H. rewrite normalize_flat by (rewrite H; reflexivity).
  unfold flatRecord, findingsOf, findingsCountOf, orElse, nowISO, newDate, bind,
    toStr, lift, ret, blankRecord.
  rewrite !H. reflexivity.
Qed.

Lemma fieldless_body_witness :
  normalizeToWorkspaces Bench.env (Arr [Str "x"; Obj [("findings", Arr [])]])
    Bench.boot
  = (Normal [blankRecord Bench.env (clock Bench.env 0)], mkWorld 1 0 [] []).
Proof.
  apply (fieldless_body_gives_blank_record Bench.env
           (Arr [Str "x"; Obj [("findings", Arr [])]]) Bench.boot).
  intros k. reflexivity.
Defined.

(** ** Findings from the request to the store *)

Lemma combine_snd {A B} (xs : list A) (ys : list B) :
  List.length xs = List.length ys -> map snd (combine xs ys) = ys.
Proof.
  revert ys. induction xs as [|x xs IH]; intros [|y ys] H; simpl in *;
    try discriminate; [reflexivity|]. f_equal. apply IH. now inversion H.
Qed.

(** The stored run, with everything it establishes. *)
Lemma stored_run (env : Env) (req : Request) (w : World) (resp : Response)
    (w' : World) :
  postFindings env req w = (Normal resp, w') ->
  statusCode resp = 200 ->
  exists username w1 records w2 docs w3 ids,
    githubUsernameFromToken env (bearerToken req) w = (Normal username, w1)
    /\ normalizeToWorkspaces env (bodyOf req)
         (note (Normalization (bodyOf req)) w1) = (Normal records, w2)
    /\ mapM (buildDoc env username) records w2 = (Normal docs, w3)
    /\ Forall2 (fun v r => exists k, Extracted env (bodyOf req) v k r)
         (inputRecords (bodyOf req)) records
    /\ Forall2 (docOf username) records docs
    /\ List.length ids = List.length docs
    /\ newEntries w w' = combine ids docs
    /\ resp = mkResponse 200
                (Success username (List.length docs) (totalFindingsOf docs)
                   (map hex ids)).
Proof.
  intros Hrun Hstatus. apply postFindings_run in Hrun.
  inversion Hrun as
      [ Htok
      | e w1 Htok Hid
      | username w1 e w2 Htok Hid Hnorm
      | username w1 w2 Htok Hid Hnorm
      | username w1 records w2 docs w3 ids w4 Htok Hid Hnorm Hne Hdocs Hins
      | username w1 records w2 docs w3 e w4 Htok Hid Hnorm Hne Hdocs Hins ];
    subst; simpl in Hstatus; try discriminate.
  destruct (buildDocs_run env username records w2)
    as (docs' & w3' & Hdocs' & Hall & (_ & Hs3 & _)).
  rewrite Hdocs in Hdocs'. inversion Hdocs'; subst docs' w3'.
  apply insertMany_normal in Hins as (Hlen & Hstore & _).
  pose proof (identity_effects _ _ _ _ _ Hid) as (Hs1 & _).
  pose proof (normalize_effects _ _ _ _ _ _ Hnorm) as (Hs2 & _).
  exists username, w1, records, w2, docs, w3, ids.
  repeat (split; [assumption|]).
  split; [eapply normalize_records; eauto|].
  repeat (split; [assumption|]).
  split; [|reflexivity].
  apply newEntries_app. congruence.
Qed.

(** X11: findings pass through untouched: after a request answered 200,
    the documents appended to the store carry, in order, the [findings]
    array of each input record as the caller sent it (its elements are not
    inspected, reordered or dropped), and the empty sequence for a record
    whose [findings] is missing or not an array. *)
Theorem findings_pass_through (env : Env) (req : Request) (w : World)
    (resp : Response) (w' : World) :
  postFindings env req w = (Normal resp, w') ->
  statusCode resp = 200 ->
  map (fun entry => doc_findings (snd entry)) (newEntries w w')
  = map findingsOf (inputRecords (bodyOf req)).
Proof.
  intros Hrun Hstatus.
  destruct (stored_run env req w resp w' Hrun Hstatus)
    as (u & w1 & rs & w2 & docs & w3 & ids
        & _ & _ & _ & Hin & Hdocs & Hlen & Hnew & _).
  rewrite Hnew, <- (map_map snd doc_findings), (combine_snd _ _ Hlen).
  clear - Hin Hdocs. revert docs Hdocs.
  induction Hin as [|v r vs rs (k & Hx) _ IH]; intros docs Hdocs;
    inversion Hdocs as [|? d ? ds Hd Hds]; subst; simpl; [reflexivity|].
  f_equal; [|now apply IH].
  destruct Hd as (_ & _ & _ & _ & _ & _ & _ & Hf).
  destruct Hx as (_ & _ & _ & _ & _ & Hfr & _). congruence.
Qed.

Lemma findings_pass_through_witness :
  map (fun entry => doc_findings (snd entry))
    (newEntries Bench.boot
       (snd (postFindings Bench.env (Bench.withToken "good" Bench.bodyB)
               Bench.boot)))
  = map findingsOf (inputRecords (bodyOf (Bench.withToken "good" Bench.bodyB))).
Proof.
  exact (findings_pass_through Bench.env (Bench.withToken "good" Bench.bodyB)
           Bench.boot _ _ eq_refl eq_refl).
Defined.

Lemma or_ofNat (n : nat) :
  (Z.of_nat n < 2 ^ 53)%Z -> Num.or (Num.ofNat n) Num.zero = Num.ofNat n.
Proof.
  intros H. destruct n as [|n]; [reflexivity|].
  unfold Num.ofNat in *. destruct (Z.of_nat (S n)) as [|p|p] eqn:E; try lia.
  rewrite (ofZ_pos_form p H). reflexivity.
Qed.

Lemma list_sum_bound (ns : list nat) (n : nat) :
  In n ns -> n <= list_sum ns.
Proof.
  induction ns as [|m ns IH]; simpl; [contradiction|].
  intros [->|H]; [lia|]. specialize (IH H). lia.
Qed.

(** X12: when no input record supplies a [findingsCount] of number type,
    the [totalFindings] of a 200 response is the number of findings the
    request carried (and the store now holds), provided that number is below
    2^53. *)
Theorem totalFindings_counts_findings (env : Env) (req : Request) (w : World)
    (resp : Response) (w' : World) :
  postFindings env req w = (Normal resp, w') ->
  statusCode resp = 200 ->
  Forall (fun v => JS.isNumber (JS.get v "findingsCount") = false)
    (inputRecords (bodyOf req)) ->
  (Z.of_nat (findingsTotal (bodyOf req)) < 2 ^ 53)%Z ->
  exists username ids,
    payload resp
    = Success username (List.length (inputRecords (bodyOf req)))
        (Num.ofNat (findingsTotal (bodyOf req))) ids.
Proof.
  intros Hrun Hstatus Hnone Hbound.
  destruct (stored_run env req w resp w' Hrun Hstatus)
    as (u & w1 & rs & w2 & docs & w3 & ids
        & _ & _ & _ & Hin & Hdocs & _ & _ & ->).
  exists u, (map hex ids). simpl.
  rewrite (totalFindings_sum _ _ _ Hdocs).
  rewrite <- (Forall2_length Hdocs), <- (Forall2_length Hin).
  assert (Hcounts : map doc_findingsCount docs
                    = map Num.ofNat
                        (map (fun v => List.length (findingsOf v))
                           (inputRecords (bodyOf req)))).
  { unfold findingsTotal in Hbound.
    assert (Hsmall : forall v, In v (inputRecords (bodyOf req)) ->
                       (Z.of_nat (List.length (findingsOf v)) < 2 ^ 53)%Z).
    { intros v Hv.
      pose proof (list_sum_bound _ _
                    (in_map (fun v => List.length (findingsOf v)) _ _ Hv)).
      lia. }
    clear - Hin Hdocs Hnone Hsmall. revert docs Hdocs.
    induction Hin as [|v r vs rs (k & Hx) _ IH]; intros docs Hdocs;
      inversion Hdocs as [|? d ? ds Hd Hds]; subst; simpl; [reflexivity|].
    inversion Hnone as [|? ? Hv Hvs]; subst.
    f_equal.
    - destruct Hd as (_ & _ & _ & _ & _ & _ & Hc & _).
      destruct Hx as (_ & _ & _ & _ & _ & _ & Hcr).
      destruct (findingsCountOf_cases v) as (_ & Hlen).
      destruct (Hlen Hv) as (Hl & _).
      rewrite Hc, Hcr, Hl. apply or_ofNat, Hsmall. now left.
    - apply IH; auto. intros v' Hv'. apply Hsmall. now right. }
  rewrite Hcounts, sum_ofNat by exact Hbound. reflexivity.
Qed.

Lemma totalFindings_counts_witness :
  exists username ids,
    Success (Str "alice") 1 (Num.ofNat 2) ["id0"]
    = Success username
        (List.length (inputRecords (bodyOf (Bench.withToken "good" Bench.bodyA))))
        (Num.ofNat (findingsTotal (bodyOf (Bench.withToken "good" Bench.bodyA))))
        ids.
Proof.
  apply (totalFindings_counts_findings Bench.env
           (Bench.withToken "good" Bench.bodyA) Bench.boot _ _ eq_refl eq_refl).
  - repeat constructor.
  - vm_compute. reflexivity.
Defined.

(** ** What the handler accepts *)

Lemma insertMany_no_fault (env : Env) (docs : list Doc) (w : World) :
  storageFault env (store w) docs = None ->
  exists ids w', insertMany env docs w = (Normal ids, w').
Proof. intros H. unfold insertMany. rewrite H. now do 2 eexists. Qed.

(** X10: the handler validates nothing but the emptiness of the batch: a
    request with a resolved identity and a tame body (no object with an own
    [toString] property, no array nested deeper than the runtime converts) is
    answered 200 and stored, one document per input record, whatever else
    the body holds (missing fields, fields of other types, a top-level
    array), unless [workspaces] is the empty array or the store faults. *)
Theorem authenticated_tame_request_is_stored (env : Env) (req : Request)
    (w : World) (username : value) (w1 : World) :
  Text.isEmpty (bearerToken req) = false ->
  githubUsernameFromToken env (bearerToken req) w = (Normal username, w1) ->
  tame env (bodyOf req) = true ->
  JS.get (bodyOf req) "workspaces" <> Arr [] ->
  (forall entries docs, storageFault env entries docs = None) ->
  exists total ids w',
    postFindings env req w
    = (Normal (mkResponse 200
                 (Success username (List.length (inputRecords (bodyOf req)))
                    total ids)),
       w')
    /\ List.length (newEntries w w') = List.length (inputRecords (bodyOf req)).
Proof.
  intros Htok Hid Htame Hne Hfault.
  destruct (normalize_returns env (bodyOf req)
              (note (Normalization (bodyOf req)) w1) Htame)
    as (rs & w2 & Hnorm & Hlen).
  destruct (buildDocs_run env username rs w2) as (docs & w3 & Hdocs & Hall & Hc3).
  destruct (insertMany_no_fault env docs w3 (Hfault _ _)) as (ids & w4 & Hins).
  assert (Hrs : rs <> []).
  { intros ->. apply Hne. eapply normalize_empty_iff. eauto. }
  exists (totalFindingsOf docs), (map hex ids), w4.
  assert (Hrun : postFindings env req w
                 = (Normal (mkResponse 200
                              (Success username (List.length docs)
                                 (totalFindingsOf docs) (map hex ids))), w4)).
  { unfold postFindings, tryCatch. fold (bodyOf req). rewrite Htok.
    rewrite (bind_step _ _ _ _ _ Hid).
    unfold bind at 1. unfold emit at 1. unfold bind at 1. rewrite Hnorm.
    destruct rs as [|r rs]; [now elim Hrs|].
    change (Nat.eqb (List.length (r :: rs)) 0) with false. cbv iota.
    unfold bind at 1. rewrite Hdocs. unfold bind at 1. rewrite Hins.
    reflexivity. }
  rewrite Hrun, <- (Forall2_length Hall), Hlen. split; [reflexivity|].
  apply insertMany_normal in Hins as (Hl & Hstore & _).
  destruct Hc3 as (_ & Hs3 & _).
  pose proof (identity_effects _ _ _ _ _ Hid) as (Hs1 & _).
  pose proof (normalize_effects _ _ _ _ _ _ Hnorm) as (Hs2 & _).
  rewrite (newEntries_app w w4 (combine ids docs)) by congruence.
  rewrite length_combine, Hl, Nat.min_id, <- (Forall2_length Hall). exact Hlen.
Qed.

Lemma authenticated_tame_request_witness :
  exists total ids w',
    postFindings Bench.env (Bench.withToken "good" Bench.bodyWrongTypes) Bench.boot
    = (Normal (mkResponse 200
                 (Success (Str "alice")
                    (List.length
                       (inputRecords
                          (bodyOf (Bench.withToken "good" Bench.bodyWrongTypes))))
                    total ids)),
       w')
    /\ List.length (newEntries Bench.boot w')
       = List.length
           (inputRecords (bodyOf (Bench.withToken "good" Bench.bodyWrongTypes))).
Proof.
  apply (authenticated_tame_request_is_stored Bench.env
           (Bench.withToken "good" Bench.bodyWrongTypes) Bench.boot (Str "alice")
           (mkWorld 0 0 [] [IdentityCall "good"])).
  - reflexivity.
  - reflexivity.
  - reflexivity.
  - discriminate.
  - reflexivity.
Defined.

(** ** The time of receipt *)

Lemma buildDocs_received (env : Env) (username : value)
    (records : list WorkspaceBatch) :
  forall w docs w',
    mapM (buildDoc env username) records w = (Normal docs, w') ->
    map doc_receivedAt docs
    = map (clock env) (seq (ticks w) (List.length records)).
Proof.
  induction records as [|r rs IH]; simpl; intros w docs w' H.
  - inversion H. reflexivity.
  - unfold bind at 1 in H. unfold buildDoc at 1 in H.
    unfold bind, newDate, ret in H. simpl in H.
    fold (mapM (buildDoc env username) rs) in H.
    destruct (mapM (buildDoc env username) rs
                (mkWorld (S (ticks w)) (minted w) (store w) (trace w)))
      as [[ds|e] w2] eqn:Hds; [|discriminate].
    inversion H; subst. simpl. f_equal.
    exact (IH _ _ _ Hds).
Qed.

(** X13: each stored document has a time of receipt of its own: after a
    request answered 200, the documents' [receivedAt] are successive readings
    of the clock, in record order, all taken after the readings normalisation
    made for the records without [generatedAt]. *)
Theorem receivedAt_are_successive_readings (env : Env) (req : Request) (w : World)
    (resp : Response) (w' : World) :
  postFindings env req w = (Normal resp, w') ->
  statusCode resp = 200 ->
  map (fun entry => doc_receivedAt (snd entry)) (newEntries w w')
  = map (clock env)
      (seq (ticks w + untimed (bodyOf req))
         (List.length (inputRecords (bodyOf req)))).
Proof.
  intros Hrun Hstatus.
  destruct (stored_run env req w resp w' Hrun Hstatus)
    as (u & w1 & rs & w2 & docs & w3 & ids
        & Hid & Hnorm & Hdocs & Hin & _ & Hlen & Hnew & _).
  rewrite Hnew, <- (map_map snd doc_receivedAt), (combine_snd _ _ Hlen).
  rewrite (buildDocs_received _ _ _ _ _ _ Hdocs).
  apply identity_run in Hid. subst w1.
  destruct (normalize_ticks _ _ _ _ _ Hnorm) as (_ & Ht).
  rewrite (Ht _ eq_refl), (Forall2_length Hin). reflexivity.
Qed.

Lemma receivedAt_witness :
  map (fun entry => doc_receivedAt (snd entry))
    (newEntries Bench.boot
       (snd (postFindings Bench.env (Bench.withToken "good" Bench.bodyB)
               Bench.boot)))
  = map (clock Bench.env)
      (seq (ticks Bench.boot + untimed (bodyOf (Bench.withToken "good" Bench.bodyB)))
         (List.length
            (inputRecords (bodyOf (Bench.withToken "good" Bench.bodyB))))).
Proof.
  exact (receivedAt_are_successive_readings Bench.env
           (Bench.withToken "good" Bench.bodyB) Bench.boot _ _ eq_refl eq_refl).
Defined.

(** ** Records and the clock, index by index *)

Lemma Forall2From_impl {A B} (P Q : nat -> A -> B -> Prop) (step : A -> nat) :
  (forall now x y, P now x y -> Q now x y) ->
  forall xs ys start,
    Forall2From P step start xs ys -> Forall2From Q step start xs ys.
Proof.
  intros HPQ xs. induction xs as [|x xs IH]; intros [|y ys] start H; simpl in *;
    try assumption. destruct H as (Hxy & Hrest). split; auto.
Qed.

(** Each record of a batch is the extraction of the element at its index,
    at the reading of the clock that is next when the record is built. *)
Lemma mapM_multiRecord_from (env : Env) (body : value) (workspaces : list value) :
  forall w rs w',
    mapM (multiRecord env body) workspaces w = (Normal rs, w') ->
    Forall2From (fun now v r => Extracted env body v now r) (reads body)
      (ticks w) workspaces rs.
Proof.
  induction workspaces as [|v vs IH]; simpl; intros w rs w' H.
  - inversion H. exact I.
  - unfold bind in H.
    destruct (multiRecord env body v w) as [[r|e] w1] eqn:Hv; [|discriminate].
    destruct (multiRecord_ticks _ _ _ _ _ _ Hv) as (_ & Ht).
    destruct (multiRecord_run env body v w) as (w1' & _ & [(e & Hv')|(r' & Hv' & Hx)]);
      rewrite Hv in Hv'; inversion Hv'; subst r' w1'.
    destruct (mapM (multiRecord env body) vs w1) as [[rs'|e] w2] eqn:Hvs;
      [|discriminate].
    inversion H; subst. simpl. split; [exact Hx|].
    rewrite <- (Ht _ eq_refl). eapply IH; eauto.
Qed.

(** C2, as the code has it: in a multi-workspace body the request-level
    [extensionVersion] and [generatedAt] come first: each record carries the
    conversion of the request-level value whenever that is truthy, whatever
    the element supplies; the element's own value is used only when the
    request-level one is missing or falsy; with neither, the version is empty
    and the time is the current time in ISO format: the reading [now] of the
    clock that is next when the record is built, which is the reading at
    which normalisation started for the first record and moves on by one
    past every record that read the clock. *)
Theorem request_level_values_first (env : Env) (body : value)
    (workspaces : list value) (w : World) (rs : list WorkspaceBatch) (w' : World) :
  JS.get body "workspaces" = Arr workspaces ->
  normalizeToWorkspaces env body w = (Normal rs, w') ->
  Forall2From
    (fun now v r =>
       let str := JS.ToString (NumberToString env) (maxNesting env) in
       let top_version := JS.get body "extensionVersion" in
       let own_version := JS.get v "extensionVersion" in
       let top_time := JS.get body "generatedAt" in
       let own_time := JS.get v "generatedAt" in
       (JS.truthy top_version = true -> str top_version = Normal (extensionVersion r))
       /\ (JS.truthy top_version = false -> JS.truthy own_version = true ->
           str own_version = Normal (extensionVersion r))
       /\ (JS.truthy top_version = false -> JS.truthy own_version = false ->
           extensionVersion r = "")
       /\ (JS.truthy top_time = true -> str top_time = Normal (generatedAt r))
       /\ (JS.truthy top_time = false -> JS.truthy own_time = true ->
           str own_time = Normal (generatedAt r))
       /\ (JS.truthy top_time = false -> JS.truthy own_time = false ->
           generatedAt r = toISOString env (clock env now)))
    (reads body) (ticks w) workspaces rs.
Proof.
  intros Hws H. rewrite (normalize_multi env body workspaces Hws) in H.
  apply mapM_multiRecord_from in H.
  eapply Forall2From_impl; [|exact H].
  intros now v r (_ & _ & Hv & Ht & _). cbv zeta.
  apply or_chain_cases in Hv as (Hv1 & Hv2 & Hv3).
  apply or_chain_cases in Ht as (Ht1 & Ht2 & Ht3).
  repeat split; auto.
  - intros Hb He. specialize (Hv3 Hb He). simpl in Hv3. congruence.
  - intros Hb He. specialize (Ht3 Hb He). simpl in Ht3. congruence.
Qed.

Lemma request_level_values_witness :
  normalizeToWorkspaces Bench.env Bench.bodyTimes (mkWorld 5 0 [] [])
  = (Normal [mkBatch "" "" "" "2025-06-01T00:00:00.000Z" [] Num.zero "";
             mkBatch "" "" "" "T1005" [] Num.zero "";
             mkBatch "" "" "2.0.0" "T1006" [] Num.zero ""],
     mkWorld 7 0 [] [])
  /\ Forall2From
       (fun now v r =>
          let str := JS.ToString (NumberToString Bench.env) (maxNesting Bench.env) in
          let top_version := JS.get Bench.bodyTimes "extensionVersion" in
          let own_version := JS.get v "extensionVersion" in
          let top_time := JS.get Bench.bodyTimes "generatedAt" in
          let own_time := JS.get v "generatedAt" in
          (JS.truthy top_version = true ->
           str top_version = Normal (extensionVersion r))
          /\ (JS.truthy top_version = false -> JS.truthy own_version = true ->
              str own_version = Normal (extensionVersion r))
          /\ (JS.truthy top_version = false -> JS.truthy own_version = false ->
              extensionVersion r = "")
          /\ (JS.truthy top_time = true -> str top_time = Normal (generatedAt r))
          /\ (JS.truthy top_time = false -> JS.truthy own_time = true ->
              str own_time = Normal (generatedAt r))
          /\ (JS.truthy top_time = false -> JS.truthy own_time = false ->
              generatedAt r = toISOString Bench.env (clock Bench.env now)))
       (reads Bench.bodyTimes) 5
       [Obj [("generatedAt", Str "2025-06-01T00:00:00.000Z")];
        Obj [];
        Obj [("extensionVersion", Str "2.0.0")]]
       [mkBatch "" "" "" "2025-06-01T00:00:00.000Z" [] Num.zero "";
        mkBatch "" "" "" "T1005" [] Num.zero "";
        mkBatch "" "" "2.0.0" "T1006" [] Num.zero ""].
Proof.
  split; [reflexivity|].
  exact (request_level_values_first Bench.env Bench.bodyTimes _ (mkWorld 5 0 [] [])
           _ _ eq_refl eq_refl).
Defined.

(** ** The count, from the request to the store *)








(** ** Arrays nested beyond the call stack *)

(** The conversion of a plain value that nests arrays deeper than the depth
    allowed throws the [RangeError] of the exhausted call stack. *)
Lemma overflows_beyond (env : Env) (v : value) :
  forall depth,
    plain v = true -> depth < nesting v ->
    JS.ToString (NumberToString env) depth v = Throw stackOverflow.
Proof.
  induction v as [| |b|n|s|l IH|props _] using value_nested_ind;
    intros depth Hp Hn; try (simpl in Hn; lia).
  simpl in Hp, Hn. destruct depth as [|deeper]; [reflexivity|].
  apply PeanoNat.lt_S_n in Hn. simpl JS.ToString.
  induction l as [|x l IHl]; [simpl in Hn; lia|].
  simpl in Hp, Hn. apply andb_true_iff in Hp as (Hx & Hl).
  inversion IH as [|? ? Px Pl]; subst.
  destruct (Nat.le_gt_cases (nesting x) deeper) as [Hshallow|Hdeep].
  - assert (Hrest : deeper < list_max (map nesting l)) by lia.
    specialize (IHl Pl Hl Hrest).
    destruct l as [|y l]; [simpl in Hrest; lia|].
    destruct (converts_within env x deeper Hx Hshallow) as (sx & Hsx).
    assert (Helem : match x with
                    | Undefined | Null => Normal ""
                    | _ => JS.ToString (NumberToString env) deeper x
                    end = Normal (match x with
                                  | Undefined | Null => ""
                                  | _ => sx
                                  end)).
    { destruct x; try reflexivity; exact Hsx. }
    rewrite Helem, IHl. reflexivity.
  - assert (Helem : match x with
                    | Undefined | Null => Normal ""
                    | _ => JS.ToString (NumberToString env) deeper x
                    end = Throw stackOverflow).
    { pose proof (Px deeper Hx Hdeep) as Hthrow.
      destruct x; try exact Hthrow; simpl in Hdeep; lia. }
    destruct l as [|y l]; [exact Helem|]. rewrite Helem. reflexivity.
Qed.

(** X17: a string field is converted whatever it holds, so a flat body
    whose [workspaceId] nests arrays deeper than the runtime converts makes
    normalisation throw [RangeError] before it reads the clock, and the
    authenticated request is answered 500 with the message of that error,
    after the identity call and with nothing stored. *)
Theorem deep_array_answers_500 (env : Env) (req : Request) (w : World)
    (username : value) (w1 : World) :
  Text.isEmpty (bearerToken req) = false ->
  githubUsernameFromToken env (bearerToken req) w = (Normal username, w1) ->
  JS.isArray (JS.get (bodyOf req) "workspaces") = false ->
  plain (JS.get (bodyOf req) "workspaceId") = true ->
  maxNesting env < nesting (JS.get (bodyOf req) "workspaceId") ->
  (forall w0,
      normalizeToWorkspaces env (bodyOf req) w0 = (Throw stackOverflow, w0))
  /\ postFindings env req w
     = (Normal (mkResponse 500 (Failure "Maximum call stack size exceeded")),
        note (Normalization (bodyOf req)) w1)
  /\ store w1 = store w.
Proof.
  intros Htok Hid Hflat Hplain Hdeep.
  assert (Hnorm : forall w0,
             normalizeToWorkspaces env (bodyOf req) w0
             = (Throw stackOverflow, w0)).
  { intros w0. unfold normalizeToWorkspaces. rewrite Hflat, andb_false_r.
    unfold flatRecord, toStr, lift. unfold bind at 1. unfold bind at 1.
    assert (Hor : JS.or (JS.get (bodyOf req) "workspaceId") (Str "")
                  = JS.get (bodyOf req) "workspaceId").
    { unfold JS.or. destruct (JS.get (bodyOf req) "workspaceId");
        try (simpl in Hdeep; lia). reflexivity. }
    rewrite Hor, (overflows_beyond env _ _ Hplain Hdeep). reflexivity. }
  split; [exact Hnorm|]. split.
  - unfold postFindings, tryCatch. fold (bodyOf req). rewrite Htok.
    rewrite (bind_step _ _ _ _ _ Hid).
    unfold bind at 1. unfold emit at 1. unfold bind at 1. rewrite Hnorm.
    reflexivity.
  - now apply identity_effects in Hid as (Hs & _).
Qed.

Lemma deep_array_witness :
  (forall w0,
      normalizeToWorkspaces Bench.env
        (bodyOf (Bench.withToken "good" Bench.bodyDeep)) w0
      = (Throw stackOverflow, w0))
  /\ postFindings Bench.env (Bench.withToken "good" Bench.bodyDeep) Bench.boot
     = (Normal (mkResponse 500 (Failure "Maximum call stack size exceeded")),
        note (Normalization (bodyOf (Bench.withToken "good" Bench.bodyDeep)))
          (mkWorld 0 0 [] [IdentityCall "good"]))
  /\ store (mkWorld 0 0 [] [IdentityCall "good"]) = store Bench.boot.
Proof.
  apply (deep_array_answers_500 Bench.env
           (Bench.withToken "good" Bench.bodyDeep) Bench.boot (Str "alice")).
  - reflexivity.
  - reflexivity.
  - reflexivity.
  - vm_compute. reflexivity.
  - apply Nat.ltb_lt. vm_compute. reflexivity.
Defined.

(** ** The single-workspace server *)

(** The runs of the single-workspace handler: no token, a failure after
    the token was read, or a stored document. *)
Lemma legacy_outcome (lenv : Legacy.Oracles) (req : Request) (lw : Legacy.World) :
  exists resp lw',
    Legacy.postFindings lenv req lw = (Normal resp, lw')
    /\ ((Text.isEmpty (bearerToken req) = true
         /\ resp = Legacy.mkResponse 401 (Legacy.Failure "Missing Bearer token")
         /\ lw' = lw)
        \/ (Text.isEmpty (bearerToken req) = false
            /\ Legacy.statusCode resp = 500)
        \/ (Text.isEmpty (bearerToken req) = false
            /\ exists r data wid wname ver gen,
                 let env := Legacy.base lenv in
                 let str := JS.ToString (NumberToString env) (maxNesting env) in
                 let body := bodyOf req in
                 let u := JS.get data "login" in
                 let doc := legacyDoc lenv req lw u wid wname ver gen in
                 let id := newObjectId env (Legacy.minted lw) in
                 identityService env (bearerToken req) = Normal r
                 /\ ok r = true /\ json r = Normal data /\ JS.truthy u = true
                 /\ str (JS.or (JS.get body "workspaceId") (Str "")) = Normal wid
                 /\ str (JS.or (JS.get body "workspaceName") (Str "")) = Normal wname
                 /\ str (JS.or (JS.get body "extensionVersion") (Str "")) = Normal ver
                 /\ str (JS.or (JS.get body "generatedAt")
                           (Str (toISOString env (clock env (Legacy.ticks lw)))))
                    = Normal gen
                 /\ resp = Legacy.mkResponse 200 (Legacy.Success u (hex id))
                 /\ lw' = Legacy.mkWorld
                            (S (Legacy.ticks lw + reads body body))
                            (S (Legacy.minted lw))
                            (Legacy.store lw ++ [(id, doc)])
                            (Legacy.trace lw
                             ++ [Legacy.IdentityCall (bearerToken req);
                                 Legacy.InsertOne doc]))).
Proof.
  unfold Legacy.postFindings, Legacy.tryCatch. fold (bodyOf req).
  destruct (Text.isEmpty (bearerToken req)) eqn:Htok.
  { do 2 eexists. split; [reflexivity|]. left. now repeat split. }
  unfold Legacy.githubUsernameFromToken, Legacy.toStr, Legacy.orElse,
    Legacy.nowISO, Legacy.newDate, Legacy.insertOne, Legacy.bind, Legacy.emit,
    Legacy.lift, Legacy.throw, Legacy.ret, Legacy.note.
  destruct (identityService (Legacy.base lenv) (bearerToken req)) as [r|e] eqn:Hsvc;
    [|do 2 eexists; split; [reflexivity|right; left; now split]].
  destruct (ok r) eqn:Hok; cbn [negb];
    [|do 2 eexists; split; [reflexivity|right; left; now split]].
  destruct (json r) as [data|e] eqn:Hjson;
    [|do 2 eexists; split; [reflexivity|right; left; now split]].
  destruct (JS.truthy (JS.get data "login")) eqn:Hlogin; cbn [negb];
    [|do 2 eexists; split; [reflexivity|right; left; now split]].
  assert (Hf : (if JS.isArray (JS.get (bodyOf req) "findings")
                then JS.get (bodyOf req) "findings" else Arr [])
               = Arr (findingsOf (bodyOf req))).
  { unfold findingsOf. now destruct (JS.get (bodyOf req) "findings"). }
  rewrite Hf. cbn [JS.isArray negb].
  destruct (JS.ToString _ _ (JS.or (JS.get (bodyOf req) "workspaceId") _))
    as [wid|e] eqn:E1;
    [|do 2 eexists; split; [reflexivity|right; left; now split]].
  destruct (JS.ToString _ _ (JS.or (JS.get (bodyOf req) "workspaceName") _))
    as [wname|e] eqn:E2;
    [|do 2 eexists; split; [reflexivity|right; left; now split]].
  destruct (JS.ToString _ _ (JS.or (JS.get (bodyOf req) "extensionVersion") _))
    as [ver|e] eqn:E3;
    [|do 2 eexists; split; [reflexivity|right; left; now split]].
  unfold legacyDoc, reads, suppliedTime. rewrite or_idem.
  destruct (JS.truthy (JS.get (bodyOf req) "generatedAt")) eqn:Hg; cbn [fst snd].
  - destruct (JS.ToString _ _ (JS.get (bodyOf req) "generatedAt")) as [gen|e] eqn:E4;
      [|do 2 eexists; split; [reflexivity|right; left; now split]].
    cbn [Legacy.store Legacy.ticks Legacy.minted Legacy.trace].
    destruct (Legacy.insertFault lenv _ _) as [e|] eqn:Hfault;
      [do 2 eexists; split; [reflexivity|right; left; now split]|].
    do 2 eexists. split; [reflexivity|]. right; right. split; [reflexivity|].
    exists r, data, wid, wname, ver, gen. cbv zeta.
    unfold JS.or. rewrite Hg, Nat.add_0_r, <- app_assoc.
    now repeat split.
  - cbn [JS.ToString].
    cbn [Legacy.store Legacy.ticks Legacy.minted Legacy.trace].
    destruct (Legacy.insertFault lenv _ _) as [e|] eqn:Hfault;
      [do 2 eexists; split; [reflexivity|right; left; now split]|].
    do 2 eexists. split; [reflexivity|]. right; right. split; [reflexivity|].
    exists r, data, wid, wname, ver,
      (toISOString (Legacy.base lenv)
         (clock (Legacy.base lenv) (Legacy.ticks lw))).
    cbv zeta. unfold JS.or. rewrite Hg, Nat.add_1_r, <- app_assoc.
    now repeat split.
Qed.

(** X14: the single-workspace handler never answers 400: its check that
    [findings] is an array comes after [findings] was replaced by an array,
    so every request is answered 200, 401 or 500, and 401 exactly when the
    request carries no bearer token. *)
Theorem legacy_never_answers_400 (lenv : Legacy.Oracles) (req : Request)
    (lw : Legacy.World) :
  exists resp lw',
    Legacy.postFindings lenv req lw = (Normal resp, lw')
    /\ In (Legacy.statusCode resp) [200; 401; 500]
    /\ (Legacy.statusCode resp = 401 <-> bearerToken req = "").
Proof.
  destruct (legacy_outcome lenv req lw)
    as (resp & lw' & Hrun & [(Htok & -> & _)|[(Htok & Hs)|(Htok & Hok)]]).
  - eexists _, lw'. split; [exact Hrun|]. simpl. split; [auto|].
    split; [intros _|reflexivity].
    destruct (bearerToken req); [reflexivity|discriminate].
  - exists resp, lw'. split; [exact Hrun|]. rewrite Hs. simpl. split; [auto|].
    split; [discriminate|]. intros E. rewrite E in Htok. discriminate.
  - destruct Hok as (r & data & wid & wname & ver & gen & Hok). cbv zeta in Hok.
    destruct Hok as (_ & _ & _ & _ & _ & _ & _ & _ & -> & _).
    eexists _, lw'. split; [exact Hrun|]. simpl. split; [auto|].
    split; [discriminate|]. intros E. rewrite E in Htok. discriminate.
Qed.

Lemma legacy_newEntries_app (w w' : Legacy.World) added :
  Legacy.store w' = Legacy.store w ++ added -> Legacy.newEntries w w' = added.
Proof.
  intros H. unfold Legacy.newEntries.
  rewrite H, skipn_app, skipn_all, Nat.sub_diag. reflexivity.
Qed.

Lemma legacy_newEvents_app (w w' : Legacy.World) evs :
  Legacy.trace w' = Legacy.trace w ++ evs -> Legacy.newEvents w w' = evs.
Proof.
  intros H. unfold Legacy.newEvents.
  rewrite H, skipn_app, skipn_all, Nat.sub_diag. reflexivity.
Qed.

Lemma legacy_identity_resolves (lenv : Legacy.Oracles) (token : string)
    (lw : Legacy.World) (r : FetchResponse) (data : value) :
  identityService (Legacy.base lenv) token = Normal r ->
  ok r = true ->
  json r = Normal data ->
  JS.truthy (JS.get data "login") = true ->
  Legacy.githubUsernameFromToken lenv token lw
  = (Normal (JS.get data "login"), Legacy.note (Legacy.IdentityCall token) lw).
Proof.
  intros Hsvc Hok Hjson Hlogin.
  unfold Legacy.githubUsernameFromToken, Legacy.bind, Legacy.emit, Legacy.lift,
    Legacy.throw, Legacy.ret.
  rewrite Hsvc, Hok. cbn [negb]. rewrite Hjson, Hlogin. reflexivity.
Qed.

(** X15: a request the single-workspace handler answers 200 made one
    identity call and one write, in that order, and appended exactly one
    document: it carries the username [githubUsernameFromToken] resolved
    for the token of the request, which is truthy, and as [findings] the
    caller's top-level [findings] array, or the empty array when that is
    missing or not an array (so a multi-workspace body, whose findings sit
    under [workspaces], is stored without findings); the response reports
    that username and, as [batchId], the identifier stored with the
    document. *)
Theorem legacy_success_stores_one_document (lenv : Legacy.Oracles) (req : Request)
    (lw : Legacy.World) (resp : Legacy.Response) (lw' : Legacy.World) :
  Legacy.postFindings lenv req lw = (Normal resp, lw') ->
  Legacy.statusCode resp = 200 ->
  exists u lw1 id doc,
    Legacy.githubUsernameFromToken lenv (bearerToken req) lw = (Normal u, lw1)
    /\ JS.truthy u = true
    /\ resp = Legacy.mkResponse 200 (Legacy.Success u (hex id))
    /\ Legacy.store lw' = Legacy.store lw ++ [(id, doc)]
    /\ Legacy.doc_username doc = u
    /\ Legacy.doc_findings doc = Arr (findingsOf (bodyOf req))
    /\ Legacy.newEvents lw lw'
       = [Legacy.IdentityCall (bearerToken req); Legacy.InsertOne doc].
Proof.
  intros Hrun Hstatus.
  destruct (legacy_outcome lenv req lw)
    as (resp0 & lw0 & Hrun0 & Hcases).
  rewrite Hrun in Hrun0. inversion Hrun0; subst resp0 lw0. clear Hrun0.
  destruct Hcases as [(_ & -> & _)|[(_ & Hs)|(_ & Hok)]];
    [discriminate|congruence|].
  destruct Hok as (r & data & wid & wname & ver & gen & Hok). cbv zeta in Hok.
  destruct Hok as (Hsvc & Hokr & Hjson & Hu & _ & _ & _ & _ & -> & ->).
  do 4 eexists.
  split; [exact (legacy_identity_resolves lenv _ lw r data Hsvc Hokr Hjson Hu)|].
  split; [exact Hu|].
  split; [reflexivity|]. split; [reflexivity|]. split; [reflexivity|].
  split; [reflexivity|].
  now apply legacy_newEvents_app.
Qed.

(** The flat legacy record, from the conversions of its fields. *)
Lemma flatRecord_computes (env : Env) (body : value) (w : World)
    (wid wname ver gen file : string) :
  let str := JS.ToString (NumberToString env) (maxNesting env) in
  str (JS.or (JS.get body "workspaceId") (Str "")) = Normal wid ->
  str (JS.or (JS.get body "workspaceName") (Str "")) = Normal wname ->
  str (JS.or (JS.get body "extensionVersion") (Str "")) = Normal ver ->
  str (JS.or (JS.get body "generatedAt")
         (Str (toISOString env (clock env (ticks w))))) = Normal gen ->
  str (JS.or (JS.get body "findingsFile") (Str "")) = Normal file ->
  flatRecord env body w
  = (Normal (mkBatch wid wname ver gen (findingsOf body) (findingsCountOf body) file),
     mkWorld (ticks w + reads body body) (minted w) (store w) (trace w)).
Proof.
  cbv zeta. intros E1 E2 E3 E4 E5.
  unfold flatRecord, orElse, nowISO, newDate, bind, toStr, lift, ret, reads,
    suppliedTime.
  rewrite or_idem, E1, E2, E3. unfold JS.or in E4 at 1.
  destruct (JS.truthy (JS.get body "generatedAt")).
  - rewrite E4, E5, Nat.add_0_r. now destruct w.
  - rewrite E4, E5, Nat.add_1_r. reflexivity.
Qed.

(** X16: the multi-workspace server stores a flat body as the
    single-workspace server did: when the older handler answers 200 to a
    request whose [workspaces] is not an array, the newer handler, started at
    the same clock reading and identifier with the same collaborators,
    answers 200 too, with the username both resolvers return and one batch
    identifier, the same one, and appends one document with the same
    username, strings, times and findings.  This needs a store that does not
    fault and a [findingsFile] that [String] converts (no object with an own
    [toString], no array nested deeper than the runtime converts): only the
    newer handler converts that field. *)
Theorem flat_requests_are_stored_as_before (lenv : Legacy.Oracles) (env : Env)
    (req : Request) (lw : Legacy.World) (w : World)
    (lresp : Legacy.Response) (lw' : Legacy.World) :
  Legacy.base lenv = env ->
  aligned lw w ->
  JS.isArray (JS.get (bodyOf req) "workspaces") = false ->
  tame env (JS.get (bodyOf req) "findingsFile") = true ->
  (forall entries docs, storageFault env entries docs = None) ->
  Legacy.postFindings lenv req lw = (Normal lresp, lw') ->
  Legacy.statusCode lresp = 200 ->
  exists resp w' u lw1 w1 id ld d total,
    postFindings env req w = (Normal resp, w')
    /\ statusCode resp = 200
    /\ Legacy.githubUsernameFromToken lenv (bearerToken req) lw = (Normal u, lw1)
    /\ githubUsernameFromToken env (bearerToken req) w = (Normal u, w1)
    /\ Legacy.payload lresp = Legacy.Success u (hex id)
    /\ payload resp = Success u 1 total [hex id]
    /\ Legacy.newEntries lw lw' = [(id, ld)]
    /\ newEntries w w' = [(id, d)]
    /\ sameDocument ld d
    /\ aligned lw' w'.
Proof.
  intros Hbase (Hticks & Hminted) Hflat Hfile Hfault Hrun Hstatus.
  destruct (legacy_outcome lenv req lw) as (resp0 & lw0 & Hrun0 & Hcases).
  rewrite Hrun in Hrun0. inversion Hrun0; subst resp0 lw0. clear Hrun0.
  destruct Hcases as [(_ & -> & _)|[(_ & Hs)|(Htok & Hok)]];
    [discriminate|congruence|].
  destruct Hok as (r & data & wid & wname & ver & gen & Hok). cbv zeta in Hok.
  pose proof Hok as (Hsvc0 & Hokr0 & Hjson0 & Hu0 & _).
  pose proof (legacy_identity_resolves lenv _ lw r data Hsvc0 Hokr0 Hjson0 Hu0)
    as Hlid.
  rewrite Hbase, Hticks, Hminted in Hok.
  destruct Hok as (Hsvc & Hokr & Hjson & Hu & E1 & E2 & E3 & E4 & -> & ->).
  destruct (tame_converts env (JS.or (JS.get (bodyOf req) "findingsFile") (Str "")))
    as (file & E5); [now apply tame_or|].
  set (u := JS.get data "login") in *.
  assert (Hid : githubUsernameFromToken env (bearerToken req) w
                = (Normal u, note (IdentityCall (bearerToken req)) w)).
  { destruct (identity_outcome env (bearerToken req) w) as (c & Hc & Hiff).
    rewrite Hc. f_equal. apply Hiff. exists r, data. now repeat split. }
  set (w1 := note (Normalization (bodyOf req))
               (note (IdentityCall (bearerToken req)) w)).
  pose proof (flatRecord_computes env (bodyOf req) w1 wid wname ver gen file
                E1 E2 E3 E4 E5) as Hrec.
  set (rec := mkBatch wid wname ver gen (findingsOf (bodyOf req))
                (findingsCountOf (bodyOf req)) file) in *.
  set (d := mkDoc u wid wname ver gen
              (clock env (ticks w + reads (bodyOf req) (bodyOf req))) file
              (Num.or (findingsCountOf (bodyOf req)) Num.zero)
              (findingsOf (bodyOf req))).
  set (id := newObjectId env (minted w)).
  eexists _, _, u, _, _, id, _, d, _.
  split.
  { unfold postFindings, tryCatch. fold (bodyOf req). rewrite Htok.
    rewrite (bind_step _ _ _ _ _ Hid).
    unfold bind at 1. unfold emit at 1. fold w1.
    rewrite (normalize_flat env _ Hflat).
    unfold bind at 1. unfold bind at 1. rewrite Hrec. unfold ret at 1.
    change (Nat.eqb (List.length [rec]) 0) with false. cbv iota.
    unfold mapM, buildDoc, newDate, insertMany, bind, ret.
    cbn [ticks minted store trace List.length]. rewrite Hfault.
    cbn [seq map combine List.length hex]. reflexivity. }
  split; [reflexivity|].
  split; [exact Hlid|]. split; [exact Hid|].
  split; [reflexivity|]. split; [reflexivity|].
  split; [now apply legacy_newEntries_app|].
  split; [now apply newEntries_app|].
  split.
  - unfold sameDocument, legacyDoc. cbn. rewrite Hbase, Hticks.
    now repeat split.
  - unfold aligned. cbn. split; [lia|lia].
Qed.

Lemma legacy_success_witness :
  exists u lw1 id doc,
    Legacy.githubUsernameFromToken Legacy.bench
      (bearerToken (Bench.withToken "good" Bench.bodyB)) Legacy.boot
    = (Normal u, lw1)
    /\ JS.truthy u = true
    /\ Legacy.mkResponse 200 (Legacy.Success (Str "alice") "id0")
       = Legacy.mkResponse 200 (Legacy.Success u (hex id))
    /\ Legacy.store
         (snd (Legacy.postFindings Legacy.bench
                 (Bench.withToken "good" Bench.bodyB) Legacy.boot))
       = Legacy.store Legacy.boot ++ [(id, doc)]
    /\ Legacy.doc_username doc = u
    /\ Legacy.doc_findings doc
       = Arr (findingsOf (bodyOf (Bench.withToken "good" Bench.bodyB)))
    /\ Legacy.newEvents Legacy.boot
         (snd (Legacy.postFindings Legacy.bench
                 (Bench.withToken "good" Bench.bodyB) Legacy.boot))
       = [Legacy.IdentityCall (bearerToken (Bench.withToken "good" Bench.bodyB));
          Legacy.InsertOne doc].
Proof.
  exact (legacy_success_stores_one_document Legacy.bench
           (Bench.withToken "good" Bench.bodyB) Legacy.boot _ _ eq_refl eq_refl).
Defined.

Lemma flat_requests_witness :
  exists resp w' u lw1 w1 id ld d total,
    postFindings Bench.env (Bench.withToken "good" Bench.bodyA) Bench.boot
    = (Normal resp, w')
    /\ statusCode resp = 200
    /\ Legacy.githubUsernameFromToken Legacy.bench
         (bearerToken (Bench.withToken "good" Bench.bodyA)) Legacy.boot
       = (Normal u, lw1)
    /\ githubUsernameFromToken Bench.env
         (bearerToken (Bench.withToken "good" Bench.bodyA)) Bench.boot
       = (Normal u, w1)
    /\ Legacy.Success (Str "alice") "id0" = Legacy.Success u (hex id)
    /\ payload resp = Success u 1 total [hex id]
    /\ Legacy.newEntries Legacy.boot
         (snd (Legacy.postFindings Legacy.bench
                 (Bench.withToken "good" Bench.bodyA) Legacy.boot))
       = [(id, ld)]
    /\ newEntries Bench.boot w' = [(id, d)]
    /\ sameDocument ld d
    /\ aligned
         (snd (Legacy.postFindings Legacy.bench
                 (Bench.withToken "good" Bench.bodyA) Legacy.boot))
         w'.
Proof.
  apply (flat_requests_are_stored_as_before Legacy.bench Bench.env
           (Bench.withToken "good" Bench.bodyA) Legacy.boot Bench.boot
           (Legacy.mkResponse 200 (Legacy.Success (Str "alice") "id0"))).
  - reflexivity.
  - split; reflexivity.
  - reflexivity.
  - reflexivity.
  - reflexivity.
  - reflexivity.
  - reflexivity.
Defined.
